(** * CSRF middleware (lib/cjs/index.js): token lifecycle and validation

    A shallow embedding of the three exported operations of the module
    ([generate], [setTokenLocalsParam], [protect]) together with the private
    module-level configuration object [csrf] they share.

    - JavaScript values are a small tagged union with the language's
      truthiness and strict equality.
    - [req.session], [req.cookies], [req.body] and [req.headers] are finite
      maps from property names to values; [None] stands for a property that
      is [undefined] on the request (the upstream middleware is missing).
    - The body of a middleware is a computation in a state-and-exception
      monad over the request, the response, the random source and a trace
      of observable events (storage accesses, console output, continuation
      calls).
    - Numbers are integers plus [NaN]; fractional numbers do not occur in
      what the module computes.
    - The continuation [next] is opaque: a call of it is an event of the
      trace. The Express response is a record of the status, the body sent,
      the cookie operations in the order they were issued, and [locals]. *)

From Stdlib Require Import ZArith Lia.
From Stdlib.Strings Require Import Byte Ascii.
From stdpp Require Import base option list strings gmap fin_maps.

(** ** JavaScript values *)

Inductive jsval : Type :=
| VUndefined
| VNull
| VBool (b : bool)
| VNum (n : Z)
| VNaN
| VStr (s : string)
| VObj (ref : nat).

(** [!!v] *)
Definition truthy (v : jsval) : bool :=
  match v with
  | VUndefined | VNull | VNaN => false
  | VBool b => b
  | VNum n => negb (n =? 0)%Z
  | VStr s => match s with EmptyString => false | String _ _ => true end
  | VObj _ => true
  end.

(** [a === b]; objects are compared by reference, [NaN] equals nothing. *)
Definition strict_eq (a b : jsval) : bool :=
  match a, b with
  | VUndefined, VUndefined => true
  | VNull, VNull => true
  | VBool x, VBool y => Bool.eqb x y
  | VNum x, VNum y => (x =? y)%Z
  | VStr x, VStr y => String.eqb x y
  | VObj x, VObj y => Nat.eqb x y
  | _, _ => false
  end.

(** [a || b] *)
Definition js_or (a b : jsval) : jsval := if truthy a then a else b.

(** [o[k]] on an object used as a dictionary. *)
Definition js_get (o : gmap string jsval) (k : string) : jsval :=
  default VUndefined (o !! k).

Definition of_option_string (o : option string) : jsval :=
  match o with Some s => VStr s | None => VUndefined end.

(** ** Exceptions *)

Inductive jserror : Type :=
| TypeError (msg : string)
| RangeError (msg : string)
| Error (msg : string)
| Thrown (v : jsval).

Inductive result (A : Type) : Type :=
| Ok (a : A)
| Throw (e : jserror).
Arguments Ok {A} a.
Arguments Throw {A} e.

(** ** Request, response, trace *)

Inductive cookie_op : Type :=
| SetCookie (name : string) (val : string) (options : option (gmap string jsval))
| ClearCookie (name : string).

Record Req : Type := mkReq {
  method : string;
  session : option (gmap string jsval);
  cookies : option (gmap string jsval);
  body : option (gmap string jsval);
  headers : option (gmap string jsval);
  currentCsrfToken : jsval
}.

Record Res : Type := mkRes {
  statusCode : Z;
  sent : option string;
  cookie_ops : list cookie_op;
  locals : gmap string jsval
}.

Inductive scope : Type := SessionScope | CookieScope.

Inductive event : Type :=
| EvRead (sc : scope) (key : string)
| EvWrite (sc : scope) (key : string) (token : string)
| EvClear (sc : scope) (key : string)
| EvInfo (msg : string) (arg : jsval)
| EvWarn (msg : string) (arg : jsval)
| EvError (e : jserror)
| EvNext (e : option jserror).

Record St : Type := mkSt {
  req : Req;
  res : Res;
  entropy : nat -> byte;
  cursor : nat;
  trace : list event
}.

(** ** The monad of middleware bodies *)

Definition M (A : Type) : Type := St -> result A * St.

#[global] Instance M_ret : MRet M := fun A a s => (Ok a, s).
#[global] Instance M_bind : MBind M := fun A B f c s =>
  match c s with
  | (Ok a, s') => f a s'
  | (Throw e, s') => (Throw e, s')
  end.

Definition throw {A} (e : jserror) : M A := fun s => (Throw e, s).

(** [try { c } catch (error) { h error }] *)
Definition try_catch {A} (c : M A) (h : jserror -> M A) : M A := fun s =>
  match c s with
  | (Ok a, s') => (Ok a, s')
  | (Throw e, s') => h e s'
  end.

Definition emit (ev : event) : M unit := fun s =>
  (Ok tt, mkSt (req s) (res s) (entropy s) (cursor s) (trace s ++ [ev])).

Definition get_req : M Req := fun s => (Ok (req s), s).
Definition get_res : M Res := fun s => (Ok (res s), s).
Definition set_req (r : Req) : M unit := fun s =>
  (Ok tt, mkSt r (res s) (entropy s) (cursor s) (trace s)).
Definition set_res (r : Res) : M unit := fun s =>
  (Ok tt, mkSt (req s) r (entropy s) (cursor s) (trace s)).

Definition lift_result {A} (r : result A) : M A := fun s => (r, s).

(** [next()] and [next(error)]: the continuation is an opaque call. *)
Definition next (e : option jserror) : M unit := emit (EvNext e).

(** ** Storage primitives *)

Definition undefined_property (k : string) : jserror :=
  TypeError ("Cannot read properties of undefined (reading '" +:+ k +:+ "')").

(** [req.session[k]] *)
Definition read_session (k : string) : M jsval :=
  r ← get_req;
  match session r with
  | None => throw (undefined_property k)
  | Some m => emit (EvRead SessionScope k);; mret (js_get m k)
  end.

(** [req.cookies[k]] *)
Definition read_cookie (k : string) : M jsval :=
  r ← get_req;
  match cookies r with
  | None => throw (undefined_property k)
  | Some m => emit (EvRead CookieScope k);; mret (js_get m k)
  end.

(** [req.session[k] = token] *)
Definition write_session (k : string) (token : string) : M unit :=
  r ← get_req;
  match session r with
  | None => throw (undefined_property k)
  | Some m =>
      set_req (mkReq (method r) (Some (<[k := VStr token]> m)) (cookies r)
                     (body r) (headers r) (currentCsrfToken r));;
      emit (EvWrite SessionScope k token)
  end.

(** [delete req.session[k]] *)
Definition delete_session (k : string) : M unit :=
  r ← get_req;
  match session r with
  | None => throw (undefined_property k)
  | Some m =>
      set_req (mkReq (method r) (Some (delete k m)) (cookies r)
                     (body r) (headers r) (currentCsrfToken r));;
      emit (EvClear SessionScope k)
  end.

(** [res.cookie(k, token, options)] *)
Definition res_cookie (k : string) (token : string)
    (options : option (gmap string jsval)) : M unit :=
  r ← get_res;
  set_res (mkRes (statusCode r) (sent r)
                 (cookie_ops r ++ [SetCookie k token options]) (locals r));;
  emit (EvWrite CookieScope k token).

(** [res.clearCookie(k)] *)
Definition res_clearCookie (k : string) : M unit :=
  r ← get_res;
  set_res (mkRes (statusCode r) (sent r)
                 (cookie_ops r ++ [ClearCookie k]) (locals r));;
  emit (EvClear CookieScope k).

(** ** The random source: [crypto.randomBytes(size).toString('hex')] *)

Definition hex_digit (n : N) : ascii :=
  match n with
  | 0%N => "0" | 1%N => "1" | 2%N => "2" | 3%N => "3"
  | 4%N => "4" | 5%N => "5" | 6%N => "6" | 7%N => "7"
  | 8%N => "8" | 9%N => "9" | 10%N => "a" | 11%N => "b"
  | 12%N => "c" | 13%N => "d" | 14%N => "e" | _ => "f"
  end%char.

Definition hex_of_byte (b : byte) : string :=
  let n := Byte.to_N b in
  String (hex_digit (n / 16)) (String (hex_digit (n mod 16)) EmptyString).

Fixpoint toString_hex (buf : list byte) : string :=
  match buf with
  | [] => EmptyString
  | b :: rest => hex_of_byte b +:+ toString_hex rest
  end.

(** Node's largest accepted [size]. *)
Definition kMaxLength : Z := 2 ^ 31 - 1.

(** [buffer.constants.MAX_STRING_LENGTH], 0x1fffffe8: the longest string
    the engine creates. *)
Definition kStringMaxLength : Z := 536870888.

(** [crypto.randomBytes(size)]: a negative or too large [size] raises
    ERR_OUT_OF_RANGE, [0] is accepted and gives the empty buffer; the bytes
    are the next [size] bytes of the entropy stream. *)
Definition randomBytes (size : Z) : M (list byte) := fun s =>
  if ((size <? 0) || (kMaxLength <? size))%Z
  then (Throw (RangeError "ERR_OUT_OF_RANGE: size"), s)
  else
    let n := Z.to_nat size in
    (Ok (map (entropy s) (seq (cursor s) n)),
     mkSt (req s) (res s) (entropy s) (cursor s + n) (trace s)).

(** [buf.toString('hex')]: two characters per byte; a buffer whose
    encoding would be longer than the longest string raises
    ERR_STRING_TOO_LONG. *)
Definition Buffer_toString (buf : list byte) : M string := fun s =>
  if (kStringMaxLength <? 2 * Z.of_nat (length buf))%Z
  then (Throw (Error "ERR_STRING_TOO_LONG"), s)
  else (Ok (toString_hex buf), s).

(** ** Configuration *)

Module CONSTANT.
Module STORAGE.
Definition SESSION : string := "session".
Definition COOKIE : string := "cookie".
End STORAGE.
End CONSTANT.
Import CONSTANT.

Record Storage : Type := mkStorage {
  type : option string;
  options : option (gmap string jsval)
}.

(** The three replaceable hooks. [protectCondition] and [getTransmitToken]
    inspect the request and return a value or throw. [errorResponse]
    receives [(req, res, next)] and acts on the response: a run of it is
    the response as it leaves it, the events it caused (a call of [next]
    among them, if it makes one) and the way it ends, by returning or by
    throwing, possibly after it has written to the response. *)
Definition RequestHook : Type := Req -> result jsval.

Inductive hook_run : Type :=
| Returns (rs : Res) (evs : list event)
| Throws (rs : Res) (evs : list event) (e : jserror).

Definition RejectHook : Type := Req -> Res -> hook_run.

Definition hook_events (run : hook_run) : list event :=
  match run with Returns _ evs | Throws _ evs _ => evs end.

(** The module variable [csrf]. *)
Record Csrf : Type := mkCsrf {
  param : string;
  value : string;
  storage : Storage;
  tokenLength : Z;
  protectCondition : RequestHook;
  getTransmitToken : RequestHook;
  errorResponse : RejectHook
}.

(** The argument of [generate]: every property is optional. *)
Record CsrfConfig : Type := mkCsrfConfig {
  cfg_tokenLength : option Z;
  cfg_storage : option Storage;
  cfg_param : option string;
  cfg_value : option string;
  cfg_errorResponse : option RejectHook;
  cfg_protectCondition : option RequestHook;
  cfg_getTransmitToken : option RequestHook
}.

(** [csrf.protectCondition] as initialised. *)
Definition default_protectCondition : RequestHook := fun r =>
  Ok (VBool (bool_decide (method r = "POST")
             || bool_decide (method r = "PUT")
             || bool_decide (method r = "DELETE"))).

(** [csrf.getTransmitToken] as initialised:
    [req.body._csrf || req.headers['csrf-token']]. *)
Definition default_getTransmitToken : RequestHook := fun r =>
  match body r with
  | None => Throw (undefined_property "_csrf")
  | Some b =>
      let v := js_get b "_csrf" in
      if truthy v then Ok v
      else match headers r with
           | None => Throw (undefined_property "csrf-token")
           | Some h => Ok (js_get h "csrf-token")
           end
  end.

(** [csrf.errorResponse] as initialised:
    [res.status(403).send('CSRF token invalid')]. *)
Definition default_errorResponse : RejectHook := fun _ rs =>
  Returns (mkRes 403 (Some "CSRF token invalid") (cookie_ops rs) (locals rs)) [].

(** Initial value of the module variable [csrf]. *)
Definition csrf_initial : Csrf := {|
  param := "_csrf";
  value := "csrfToken";
  storage := mkStorage (Some STORAGE.SESSION) (Some ∅);
  tokenLength := 16;
  protectCondition := default_protectCondition;
  getTransmitToken := default_getTransmitToken;
  errorResponse := default_errorResponse
|}.

(** [csrf.getToken(req)] *)
Definition getToken (csrf : Csrf) : M jsval :=
  if decide (type (storage csrf) = Some STORAGE.SESSION) then
    v ← read_session (param csrf); mret (js_or v VNull)
  else if decide (type (storage csrf) = Some STORAGE.COOKIE) then
    v ← read_cookie (param csrf); mret (js_or v VNull)
  else
    emit (EvWarn "CSRF: Unknown storage type:"
                 (of_option_string (type (storage csrf))));;
    mret VNull.

(** [csrf.clearToken(req, res)] *)
Definition clearToken (csrf : Csrf) : M unit :=
  if decide (type (storage csrf) = Some STORAGE.SESSION) then
    delete_session (param csrf)
  else if decide (type (storage csrf) = Some STORAGE.COOKIE) then
    res_clearCookie (param csrf)
  else
    emit (EvWarn "CSRF: Unknown storage type:"
                 (of_option_string (type (storage csrf)))).

(** Calls of the hooks stored in [csrf]. *)
Definition call_hook (h : RequestHook) : M jsval :=
  r ← get_req; lift_result (h r).

Definition call_errorResponse (h : RejectHook) : M unit := fun s =>
  match h (req s) (res s) with
  | Returns rs evs =>
      (Ok tt, mkSt (req s) rs (entropy s) (cursor s) (trace s ++ evs))
  | Throws rs evs e =>
      (Throw e, mkSt (req s) rs (entropy s) (cursor s) (trace s ++ evs))
  end.

(** ** [generate] *)

(** [{ ...csrf, ...csrfConfig }] *)
Definition spread (csrf : Csrf) (csrfConfig : CsrfConfig) : Csrf := {|
  param := default (param csrf) (cfg_param csrfConfig);
  value := default (value csrf) (cfg_value csrfConfig);
  storage := default (storage csrf) (cfg_storage csrfConfig);
  tokenLength := default (tokenLength csrf) (cfg_tokenLength csrfConfig);
  protectCondition :=
    default (protectCondition csrf) (cfg_protectCondition csrfConfig);
  getTransmitToken :=
    default (getTransmitToken csrf) (cfg_getTransmitToken csrfConfig);
  errorResponse := default (errorResponse csrf) (cfg_errorResponse csrfConfig)
|}.

(** The default value of [generate]'s parameter, evaluated at the call. *)
Definition default_csrfConfig (csrf : Csrf) : CsrfConfig := {|
  cfg_tokenLength := Some 16%Z;
  cfg_storage := Some (mkStorage (Some STORAGE.SESSION) (Some ∅));
  cfg_param := Some "_csrf";
  cfg_value := Some "csrfToken";
  cfg_errorResponse := Some (errorResponse csrf);
  cfg_protectCondition := Some (protectCondition csrf);
  cfg_getTransmitToken := Some (getTransmitToken csrf)
|}.

(** [csrfConfig.storage.type === t && typeof req[...] === 'undefined'] *)
Definition storage_missing {A} (csrfConfig : CsrfConfig) (t : string)
    (store : option A) : M bool :=
  match cfg_storage csrfConfig with
  | None => throw (undefined_property "type")
  | Some st => mret (bool_decide (type st = Some t) && bool_decide (store = None))
  end.

(** The middleware returned by [generate(csrfConfig)]. It is an [async]
    function: a [Throw] result is the rejection of the promise it returns.
    It closes over [csrfConfig] and reads the module variable [csrf] when it
    runs. *)
Definition middleware (csrfConfig : CsrfConfig) (csrf : Csrf) : M unit :=
  r ← get_req;
  no_session ← storage_missing csrfConfig STORAGE.SESSION (session r);
  (if no_session : bool
   then throw (Error "CSRF: Session middleware (e.g., express-session) is required when using session storage.")
   else mret tt);;
  no_cookies ← storage_missing csrfConfig STORAGE.COOKIE (cookies r);
  (if no_cookies : bool
   then throw (Error "CSRF: cookie-parser middleware is required when using cookie storage.")
   else mret tt);;
  try_catch
    (current ← getToken csrf;
     (if negb (truthy current) then
        buf ← randomBytes (tokenLength csrf);
        token ← Buffer_toString buf;
        emit (EvInfo "CREATE CSRF TOKEN:" (VStr token));;
        (if decide (type (storage csrf) = Some STORAGE.SESSION) then
           write_session (param csrf) token
         else if decide (type (storage csrf) = Some STORAGE.COOKIE) then
           res_cookie (param csrf) token (options (storage csrf))
         else
           emit (EvWarn "CSRF: Unknown storage type:"
                        (of_option_string (type (storage csrf)))));;
        r' ← get_req;
        set_req (mkReq (method r') (session r') (cookies r') (body r')
                       (headers r') (VStr token))
      else mret tt);;
     next None)
    (fun error => emit (EvError error);; next (Some error)).

(** [generate(csrfConfig)]: reassigns the module variable and returns the
    middleware. *)
Definition generate (csrfConfig : CsrfConfig) (csrf : Csrf)
    : Csrf * (Csrf -> M unit) :=
  (spread csrf csrfConfig, middleware csrfConfig).

(** [generate()]: the call without an argument. *)
Definition generate_default (csrf : Csrf) : Csrf * (Csrf -> M unit) :=
  generate (default_csrfConfig csrf) csrf.

(** ** [setTokenLocalsParam] *)

Definition setTokenLocalsParam (csrf : Csrf) : M unit :=
  current ← getToken csrf;
  r ← get_req;
  rs ← get_res;
  set_res (mkRes (statusCode rs) (sent rs) (cookie_ops rs)
                 (<[value csrf := js_or current (currentCsrfToken r)]> (locals rs)));;
  next None.

(** ** [protect] *)

(** The block guarded by [try]. The result tells whether the function has
    already returned (the [return csrf.errorResponse(req, res, next)]). *)
Definition protect_guarded (csrf : Csrf) : M bool :=
  cond ← call_hook (protectCondition csrf);
  if truthy cond then
    token ← call_hook (getTransmitToken csrf);
    invalid ← (if negb (truthy token) then mret true
               else canonical ← getToken csrf;
                    mret (negb (strict_eq token canonical)));
    if invalid : bool then
      call_errorResponse (errorResponse csrf);; mret true
    else
      emit (EvInfo "DELETE CSRF TOKEN: " token);;
      clearToken csrf;;
      mret false
  else mret false.

Definition protect (csrf : Csrf) : M unit :=
  try_catch
    (returned ← protect_guarded csrf;
     if returned : bool then mret tt else next None)
    (fun error => emit (EvError error);; next (Some error)).

(** ** Running an operation on a request *)

Definition start (r : Req) (rs : Res) (rnd : nat -> byte) : St :=
  mkSt r rs rnd 0 [].

Definition fresh_res : Res := mkRes 200 None [] ∅.

(** ** The designated store, before and after an operation *)

(** The store that [csrf] designates, as a request presents it. *)
Definition scope_of (csrf : Csrf) (r : Req) : option (gmap string jsval) :=
  if decide (type (storage csrf) = Some STORAGE.SESSION) then session r
  else if decide (type (storage csrf) = Some STORAGE.COOKIE) then cookies r
  else None.

(** Which of the two stores [csrf] designates, if any. *)
Definition scope_kind (csrf : Csrf) : option scope :=
  if decide (type (storage csrf) = Some STORAGE.SESSION) then Some SessionScope
  else if decide (type (storage csrf) = Some STORAGE.COOKIE) then Some CookieScope
  else None.

(** The cookie operations added to the response between states [s0], [s]. *)
Definition new_cookie_ops (s0 s : St) : list cookie_op :=
  drop (length (cookie_ops (res s0))) (cookie_ops (res s)).

(** The same store as the module leaves it for the next request, after an
    operation that ran from state [s0] to [s]. The session object is the
    one on the request. The cookies are the client's: they are what the
    client sent when the response carries no new cookie operation; what a
    client makes of a cookie operation depends on the attributes of the
    cookies it holds and is not determined by the module, hence [None]. *)
Definition scope_after (csrf : Csrf) (s0 s : St)
    : option (gmap string jsval) :=
  if decide (type (storage csrf) = Some STORAGE.SESSION) then session (req s)
  else if decide (type (storage csrf) = Some STORAGE.COOKIE) then
    match new_cookie_ops s0 s with
    | [] => cookies (req s0)
    | _ :: _ => None
    end
  else None.

(** The canonical token held by a store: [store[param] || null]. *)
Definition canonical (csrf : Csrf) (store : gmap string jsval) : jsval :=
  js_or (js_get store (param csrf)) VNull.

(** ** The second copy of the module: issue and expose

    The sources hold a second copy of the module, shorter than
    lib/cjs/index.js. Embedded here are its [getToken], the middleware of
    its [generate] and its [setTokenLocalsParam]. They differ from
    lib/cjs/index.js in three places: the [switch] of [getToken] has no
    [default] case, the middleware makes no prerequisite check and does not
    set [req.currentCsrfToken], and [setTokenLocalsParam] has no
    fallback. *)

Module Unguarded.

(** [csrf.getToken(req)]: for a type other than the two known ones the
    [switch] falls through and the function returns [undefined]. *)
Definition getToken (csrf : Csrf) : M jsval :=
  if decide (type (storage csrf) = Some STORAGE.SESSION) then
    v ← read_session (param csrf); mret (js_or v VNull)
  else if decide (type (storage csrf) = Some STORAGE.COOKIE) then
    v ← read_cookie (param csrf); mret (js_or v VNull)
  else mret VUndefined.

(** The middleware returned by [generate(csrfConfig)]; it does not use
    [csrfConfig]. *)
Definition middleware (csrf : Csrf) : M unit :=
  try_catch
    (current ← getToken csrf;
     (if negb (truthy current) then
        buf ← randomBytes (tokenLength csrf);
        token ← Buffer_toString buf;
        emit (EvInfo "CREATE CSRF TOKEN:" (VStr token));;
        (if decide (type (storage csrf) = Some STORAGE.SESSION) then
           write_session (param csrf) token
         else if decide (type (storage csrf) = Some STORAGE.COOKIE) then
           res_cookie (param csrf) token (options (storage csrf))
         else mret tt)
      else mret tt);;
     next None)
    (fun error => emit (EvError error);; next (Some error)).

Definition generate (csrfConfig : CsrfConfig) (csrf : Csrf)
    : Csrf * (Csrf -> M unit) :=
  (spread csrf csrfConfig, middleware).

(** [res.locals[csrf.value] = csrf.getToken(req); next()] *)
Definition setTokenLocalsParam (csrf : Csrf) : M unit :=
  current ← getToken csrf;
  rs ← get_res;
  set_res (mkRes (statusCode rs) (sent rs) (cookie_ops rs)
                 (<[value csrf := current]> (locals rs)));;
  next None.

End Unguarded.

(** ** Classification of events *)

Definition is_next (ev : event) : bool :=
  match ev with EvNext _ => true | _ => false end.
Definition is_read (ev : event) : bool :=
  match ev with EvRead _ _ => true | _ => false end.
Definition is_write (ev : event) : bool :=
  match ev with EvWrite _ _ _ => true | _ => false end.
Definition is_clear (ev : event) : bool :=
  match ev with EvClear _ _ => true | _ => false end.

(** Events that neither touch the canonical token nor pass control on. *)
Definition quiet (ev : event) : bool :=
  negb (is_next ev || is_write ev || is_clear ev).

(** The state [s] with [evs] appended to its trace. *)
Definition logged (s : St) (evs : list event) : St :=
  mkSt (req s) (res s) (entropy s) (cursor s) (trace s ++ evs).

(** ** Sample requests and configurations *)

Definition sample_entropy : nat -> byte := fun i =>
  match i with 0 => x2a | 1 => xff | _ => x07 end.

Definition sample_req (m : string) (sess cook bod hdr : gmap string jsval) : Req :=
  mkReq m (Some sess) (Some cook) (Some bod) (Some hdr) VUndefined.

(** POST carrying in its body the token the session holds. *)
Definition post_valid : St :=
  start (sample_req "POST" {["_csrf" := VStr "2aff"]} ∅ {["_csrf" := VStr "2aff"]} ∅)
        fresh_res sample_entropy.

(** The same session after that request was accepted, same token sent again. *)
Definition post_replayed : St :=
  start (sample_req "POST" ∅ ∅ {["_csrf" := VStr "2aff"]} ∅)
        fresh_res sample_entropy.

(** POST without any submitted token. *)
Definition post_missing : St :=
  start (sample_req "POST" {["_csrf" := VStr "2aff"]} ∅ ∅ ∅)
        fresh_res sample_entropy.

(** POST whose header carries a token other than the session's. *)
Definition post_wrong : St :=
  start (sample_req "POST" {["_csrf" := VStr "2aff"]} ∅ ∅ {["csrf-token" := VStr "0000"]})
        fresh_res sample_entropy.

(** GET on a request that has neither session nor cookies nor body. *)
Definition get_bare : St :=
  start (mkReq "GET" None None None None VUndefined) fresh_res sample_entropy.

(** First visit: empty session, empty cookie jar. *)
Definition first_visit : St :=
  start (sample_req "GET" ∅ ∅ ∅ ∅) fresh_res sample_entropy.

(** The next visit of a client whose jar holds the cookie minted above. *)
Definition second_visit : St :=
  start (sample_req "GET" ∅ {["_csrf" := VStr "2aff"]} ∅ ∅) fresh_res sample_entropy.

Definition config_of (len : Z) (kind : string) (name : string) : CsrfConfig :=
  mkCsrfConfig (Some len) (Some (mkStorage (Some kind) None)) (Some name)
               None None None None.

(** POST whose body was not parsed: [req.body] is undefined. *)
Definition post_unparsed : St :=
  start (mkReq "POST" (Some {["_csrf" := VStr "2aff"]}) (Some ∅) None (Some ∅)
               VUndefined)
        fresh_res sample_entropy.

(** POST carrying a token on a request without session object. *)
Definition post_no_session : St :=
  start (mkReq "POST" None (Some ∅) (Some {["_csrf" := VStr "2aff"]}) (Some ∅)
               VUndefined)
        fresh_res sample_entropy.

(** A rejection hook that sets the status and then throws while rendering,
    as [res.status(403).render(...)] does without a view engine. *)
Definition throwing_errorResponse : RejectHook := fun _ rs =>
  Throws (mkRes 403 (sent rs) (cookie_ops rs) (locals rs)) []
         (Error "render failed").

(** A request parsed for cookies on which no session object was set up. *)
Definition visit_without_session : St :=
  start (mkReq "GET" None (Some ∅) (Some ∅) (Some ∅) VUndefined)
        fresh_res sample_entropy.

(** PATCH with a body but no token anywhere. *)
Definition patch_plain : St :=
  start (sample_req "PATCH" {["_csrf" := VStr "2aff"]} ∅ ∅ ∅)
        fresh_res sample_entropy.

(** POST with a wrong token in the body and the right one in the header. *)
Definition post_body_wrong_header_right : St :=
  start (sample_req "POST" {["_csrf" := VStr "2aff"]} ∅
                    {["_csrf" := VStr "0000"]} {["csrf-token" := VStr "2aff"]})
        fresh_res sample_entropy.

(** POST with the right token in the header only. *)
Definition post_header_only : St :=
  start (sample_req "POST" {["_csrf" := VStr "2aff"]} ∅ ∅
                    {["csrf-token" := VStr "2aff"]})
        fresh_res sample_entropy.

(** POST with 'cookie' storage in mind: the cookie and the body both carry
    the token. *)
Definition post_cookie_valid : St :=
  start (sample_req "POST" ∅ {["_csrf" := VStr "2aff"]} {["_csrf" := VStr "2aff"]} ∅)
        fresh_res sample_entropy.

(** ** Observations on traces and tokens *)

(** Where the issue middleware, run from state [s0] to [s1], has left the
    token [token] for the requests to come: with 'session' storage in the
    session object of the request; with 'cookie' storage among the cookies
    the client sent, the response carrying no new cookie, or else in the
    cookie the response sets under [param] with the configured options. *)
Definition token_left (csrf : Csrf) (s0 s1 : St) (token : jsval) : Prop :=
  match scope_kind csrf with
  | Some SessionScope =>
      exists m, session (req s1) = Some m /\ js_get m (param csrf) = token
  | Some CookieScope =>
      (exists jar, cookies (req s0) = Some jar /\
                   js_get jar (param csrf) = token /\
                   cookie_ops (res s1) = cookie_ops (res s0)) \/
      (exists str, token = VStr str /\
                   cookie_ops (res s1) =
                   cookie_ops (res s0) ++
                   [SetCookie (param csrf) str (options (storage csrf))])
  | None => False
  end.

(** The calls of the continuation among a list of events, in order. *)
Definition next_calls (evs : list event) : list (option jserror) :=
  omap (fun ev => match ev with EvNext e => Some e | _ => None end) evs.

(** A rejection hook that is terminal: it never calls the continuation. *)
Definition terminal (h : RejectHook) : Prop :=
  forall (r : Req) (rs : Res), next_calls (hook_events (h r rs)) = [].

(** The value of a hex digit, by its character code: ['0'..'9'] are 48 to
    57, ['a'..'f'] are 97 to 102. Together with [from_hex] below it is the
    inverse of [hex_of_byte], used to show that the encoding loses
    nothing. *)
Definition hex_value (c : ascii) : option N :=
  let n := N_of_ascii c in
  if ((48 <=? n) && (n <=? 57))%N then Some (n - 48)%N
  else if ((97 <=? n) && (n <=? 102))%N then Some (n - 87)%N
  else None.

(** The characters of [Buffer.toString('hex')]. *)
Definition is_hex_char (c : ascii) : bool :=
  match hex_value c with Some _ => true | None => false end.

Fixpoint from_hex (str : string) : option (list byte) :=
  match str with
  | EmptyString => Some []
  | String c1 (String c2 rest) =>
      hi ← hex_value c1;
      lo ← hex_value c2;
      b ← Byte.of_N (16 * hi + lo);
      bs ← from_hex rest;
      Some (b :: bs)
  | String _ EmptyString => None
  end.

Fixpoint all_chars (p : ascii -> bool) (str : string) : bool :=
  match str with
  | EmptyString => true
  | String c rest => p c && all_chars p rest
  end.

(** * Properties *)

Ltac run_body :=
  unfold protect, protect_guarded, middleware, setTokenLocalsParam,
    getToken, clearToken, storage_missing, try_catch, call_hook,
    call_errorResponse, lift_result, read_session, read_cookie,
    write_session, delete_session, res_cookie, res_clearCookie,
    randomBytes, Buffer_toString, next, emit, get_req, get_res, set_req, set_res, throw,
    mbind, M_bind, mret, M_ret;
  simpl.

Section Values.

Lemma strict_eq_true (a b : jsval) : strict_eq a b = true -> a = b.
Proof.
  destruct a, b; simpl; try discriminate; auto; intros H.
  - apply Bool.eqb_prop in H. congruence.
  - apply Z.eqb_eq in H. congruence.
  - apply String.eqb_eq in H. congruence.
  - apply Nat.eqb_eq in H. congruence.
Qed.

Lemma strict_eq_truthy_refl (a : jsval) : truthy a = true -> strict_eq a a = true.
Proof.
  destruct a; simpl; try discriminate; auto; intros _.
  - apply Bool.eqb_reflx.
  - apply Z.eqb_refl.
  - apply String.eqb_refl.
  - apply Nat.eqb_refl.
Qed.

Lemma strict_eq_neq (a b : jsval) : a ≠ b -> strict_eq a b = false.
Proof.
  intros Hne. destruct (strict_eq a b) eqn:E; [|reflexivity].
  apply strict_eq_true in E. contradiction.
Qed.

Lemma js_or_null_truthy (v : jsval) :
  truthy (js_or v VNull) = true -> js_or v VNull = v /\ truthy v = true.
Proof. unfold js_or. destruct (truthy v) eqn:E; simpl; [auto | discriminate]. Qed.

Lemma js_or_null_falsy (v : jsval) :
  truthy (js_or v VNull) = false -> js_or v VNull = VNull.
Proof. unfold js_or. destruct (truthy v) eqn:E; simpl; [congruence | auto]. Qed.

Lemma logged_nil (s : St) : logged s [] = s.
Proof. destruct s. unfold logged. simpl. by rewrite app_nil_r. Qed.

Lemma logged_logged (s : St) (a b : list event) :
  logged (logged s a) b = logged s (a ++ b).
Proof. unfold logged. simpl. by rewrite app_assoc. Qed.

End Values.

Section GetToken.

Variable csrf : Csrf.

(** [getToken] on a request that presents the designated store. *)
Lemma getToken_present (s : St) (m : gmap string jsval) :
  scope_of csrf (req s) = Some m ->
  exists sc, scope_kind csrf = Some sc /\
    getToken csrf s = (Ok (canonical csrf m), logged s [EvRead sc (param csrf)]).
Proof.
  unfold scope_of, scope_kind, getToken, canonical.
  destruct (decide (type (storage csrf) = Some STORAGE.SESSION)) as [Hs|Hs].
  - intros Hm. exists SessionScope. split; [reflexivity|].
    unfold read_session, mbind, M_bind, get_req. simpl. by rewrite Hm.
  - destruct (decide (type (storage csrf) = Some STORAGE.COOKIE)) as [Hc|Hc];
      [|discriminate].
    intros Hm. exists CookieScope. split; [reflexivity|].
    unfold read_cookie, mbind, M_bind, get_req. simpl. by rewrite Hm.
Qed.

(** [getToken] only appends reads and warnings to the trace. *)
Lemma getToken_frame (s : St) :
  exists pre, snd (getToken csrf s) = logged s pre /\ forallb quiet pre = true.
Proof.
  unfold getToken.
  destruct (decide (type (storage csrf) = Some STORAGE.SESSION)) as [Hs|Hs];
    [|destruct (decide (type (storage csrf) = Some STORAGE.COOKIE)) as [Hc|Hc]].
  - unfold read_session, mbind, M_bind, get_req. simpl.
    destruct (session (req s)); simpl.
    + by exists [EvRead SessionScope (param csrf)].
    + exists []. by rewrite logged_nil.
  - unfold read_cookie, mbind, M_bind, get_req. simpl.
    destruct (cookies (req s)); simpl.
    + by exists [EvRead CookieScope (param csrf)].
    + exists []. by rewrite logged_nil.
  - simpl. by eexists [_].
Qed.

(** A truthy canonical token can only come out of a store that is there. *)
Lemma getToken_truthy (s : St) (v : jsval) :
  fst (getToken csrf s) = Ok v -> truthy v = true ->
  exists m, scope_of csrf (req s) = Some m /\ canonical csrf m = v.
Proof.
  unfold getToken, scope_of, canonical.
  destruct (decide (type (storage csrf) = Some STORAGE.SESSION)) as [Hs|Hs];
    [|destruct (decide (type (storage csrf) = Some STORAGE.COOKIE)) as [Hc|Hc]].
  - unfold read_session, mbind, M_bind, get_req. simpl.
    destruct (session (req s)) as [m|]; simpl; [|discriminate].
    intros [= <-] _. by exists m.
  - unfold read_cookie, mbind, M_bind, get_req. simpl.
    destruct (cookies (req s)) as [m|]; simpl; [|discriminate].
    intros [= <-] _. by exists m.
  - simpl. intros [= <-]. discriminate.
Qed.

End GetToken.

Section Protect.

Variable csrf : Csrf.

(** The rejection path when the submitted token is falsy: the canonical
    token is not even read. *)
Lemma protect_reject_absent (s : St) (cond token : jsval) (rs : Res)
    (evs : list event) :
  protectCondition csrf (req s) = Ok cond ->
  truthy cond = true ->
  getTransmitToken csrf (req s) = Ok token ->
  truthy token = false ->
  errorResponse csrf (req s) (res s) = Returns rs evs ->
  protect csrf s =
  (Ok tt, mkSt (req s) rs (entropy s) (cursor s) (trace s ++ evs)).
Proof.
  intros Hc Ht Htok Hf Herr.
  unfold protect, try_catch, protect_guarded, call_hook, lift_result, get_req.
  unfold mbind, M_bind. simpl. rewrite Hc. simpl. rewrite Ht, Htok. simpl.
  rewrite Hf. simpl.
  unfold mret, M_ret, call_errorResponse. by rewrite Herr.
Qed.

(** The rejection path when the submitted token differs from the
    canonical one that was read. *)
Lemma protect_reject_mismatch (s s' : St) (cond token canon : jsval)
    (rs : Res) (evs : list event) :
  protectCondition csrf (req s) = Ok cond ->
  truthy cond = true ->
  getTransmitToken csrf (req s) = Ok token ->
  truthy token = true ->
  getToken csrf s = (Ok canon, s') ->
  strict_eq token canon = false ->
  errorResponse csrf (req s) (res s) = Returns rs evs ->
  protect csrf s =
  (Ok tt, mkSt (req s) rs (entropy s) (cursor s) (trace s' ++ evs)).
Proof.
  intros Hc Ht Htok Htr Hget Hne Herr.
  destruct (getToken_frame csrf s) as [pre [Hs _]].
  rewrite Hget in Hs. simpl in Hs. subst s'.
  unfold protect, try_catch, protect_guarded, call_hook, lift_result, get_req.
  unfold mbind, M_bind. simpl. rewrite Hc. simpl. rewrite Ht, Htok. simpl.
  rewrite Htr. simpl. rewrite Hget.
  unfold mret, M_ret. rewrite Hne. simpl.
  unfold call_errorResponse. simpl. by rewrite Herr.
Qed.

(** Both rejection paths at once. *)
Lemma protect_reject (s : St) (cond token : jsval) (rs : Res) (evs : list event) :
  protectCondition csrf (req s) = Ok cond ->
  truthy cond = true ->
  getTransmitToken csrf (req s) = Ok token ->
  (truthy token = false \/
   exists canon, fst (getToken csrf s) = Ok canon /\ strict_eq token canon = false) ->
  errorResponse csrf (req s) (res s) = Returns rs evs ->
  exists pre, forallb quiet pre = true /\
    protect csrf s =
    (Ok tt, mkSt (req s) rs (entropy s) (cursor s) (trace s ++ pre ++ evs)).
Proof.
  intros Hc Ht Htok Hinv Herr.
  destruct (truthy token) eqn:Etok.
  - destruct Hinv as [Hf | [canon [Hcanon Hne]]]; [discriminate|].
    destruct (getToken_frame csrf s) as [pre [Hs Hq]].
    destruct (getToken csrf s) as [v s'] eqn:E. simpl in Hcanon, Hs. subst v.
    exists pre. split; [exact Hq|].
    rewrite (protect_reject_mismatch s s' cond token canon rs evs); auto.
    subst s'. simpl. by rewrite app_assoc.
  - exists []. split; [reflexivity|].
    by apply (protect_reject_absent s cond token rs evs).
Qed.

(** The bypass path. *)
Lemma protect_skip (s : St) (cond : jsval) :
  protectCondition csrf (req s) = Ok cond ->
  truthy cond = false ->
  protect csrf s = (Ok tt, logged s [EvNext None]).
Proof.
  intros Hc Ht.
  unfold protect, try_catch, protect_guarded, call_hook, lift_result, get_req.
  unfold mbind, M_bind. simpl. rewrite Hc. simpl. rewrite Ht. reflexivity.
Qed.

End Protect.

Section SingleUse.

Variable csrf : Csrf.

Lemma canonical_absent (m : gmap string jsval) :
  m !! param csrf = None -> canonical csrf m = VNull.
Proof. unfold canonical, js_get. by intros ->. Qed.

Lemma strict_eq_truthy_null (v : jsval) :
  truthy v = true -> strict_eq v VNull = false.
Proof. by destruct v. Qed.

(** The state [protect] leaves when it accepts: with 'session' storage the
    entry is deleted from the session, with 'cookie' storage the request is
    untouched and the response carries one more cookie operation. *)
Lemma protect_accept_state (s : St) (cond token : jsval)
    (m : gmap string jsval) (sc : scope) :
  protectCondition csrf (req s) = Ok cond ->
  truthy cond = true ->
  getTransmitToken csrf (req s) = Ok token ->
  truthy token = true ->
  scope_of csrf (req s) = Some m ->
  canonical csrf m = token ->
  scope_kind csrf = Some sc ->
  protect csrf s =
  (Ok tt,
   mkSt (match sc with
         | SessionScope =>
             mkReq (method (req s)) (Some (delete (param csrf) m))
                   (cookies (req s)) (body (req s)) (headers (req s))
                   (currentCsrfToken (req s))
         | CookieScope => req s
         end)
        (match sc with
         | SessionScope => res s
         | CookieScope =>
             mkRes (statusCode (res s)) (sent (res s))
                   (cookie_ops (res s) ++ [ClearCookie (param csrf)])
                   (locals (res s))
         end)
        (entropy s) (cursor s)
        (trace s ++ [EvRead sc (param csrf);
                     EvInfo "DELETE CSRF TOKEN: " token;
                     EvClear sc (param csrf);
                     EvNext None])).
Proof.
  intros Hc Ht Htok Htr Hm Hcan Hk.
  pose proof (strict_eq_truthy_refl token Htr) as Heq.
  revert Hm Hk Hcan. unfold scope_of, scope_kind, canonical. run_body.
  rewrite Hc. simpl. rewrite Ht, Htok. simpl. rewrite Htr. simpl.
  destruct (decide (type (storage csrf) = Some STORAGE.SESSION)) as [Hs|Hs];
    [|destruct (decide (type (storage csrf) = Some STORAGE.COOKIE)) as [Hc'|Hc']];
    intros Hm Hk Hcan; [| |discriminate]; injection Hk as <-;
    rewrite Hm; simpl; rewrite Hcan, Heq; simpl; rewrite ?Hm; simpl;
    rewrite <- !app_assoc; reflexivity.
Qed.

(** The acceptance path, as far as result and trace go. *)
Lemma protect_accept (s : St) (cond token : jsval) :
  protectCondition csrf (req s) = Ok cond ->
  truthy cond = true ->
  getTransmitToken csrf (req s) = Ok token ->
  truthy token = true ->
  fst (getToken csrf s) = Ok token ->
  exists sc s1,
    scope_kind csrf = Some sc /\
    protect csrf s = (Ok tt, s1) /\
    trace s1 = trace s ++ [EvRead sc (param csrf);
                           EvInfo "DELETE CSRF TOKEN: " token;
                           EvClear sc (param csrf);
                           EvNext None].
Proof.
  intros Hc Ht Htok Htr Hget.
  destruct (getToken_truthy csrf s token Hget Htr) as [m [Hm Hcan]].
  destruct (getToken_present csrf s m Hm) as [sc [Hk _]].
  exists sc. eexists. split; [exact Hk|].
  split; [exact (protect_accept_state s cond token m sc Hc Ht Htok Htr Hm Hcan Hk)|].
  reflexivity.
Qed.

End SingleUse.

Section Minting.

Lemma toString_hex_length (buf : list byte) :
  String.length (toString_hex buf) = 2 * length buf.
Proof.
  induction buf as [|b rest IH]; [reflexivity|].
  change (String.length (toString_hex (b :: rest)))
    with (S (S (String.length (toString_hex rest)))).
  rewrite IH. simpl. lia.
Qed.

Lemma toString_hex_truthy (buf : list byte) :
  buf <> [] -> truthy (VStr (toString_hex buf)) = true.
Proof. destruct buf; [congruence | reflexivity]. Qed.

Lemma randomBytes_in_range (size : Z) (s : St) :
  (0 <= size <= kMaxLength)%Z ->
  randomBytes size s =
  (Ok (map (entropy s) (seq (cursor s) (Z.to_nat size))),
   mkSt (req s) (res s) (entropy s) (cursor s + Z.to_nat size) (trace s)).
Proof.
  intros [Hlo Hhi]. unfold randomBytes.
  destruct (size <? 0)%Z eqn:E1; [apply Z.ltb_lt in E1; lia|].
  destruct (kMaxLength <? size)%Z eqn:E2; [apply Z.ltb_lt in E2; lia|].
  reflexivity.
Qed.

Lemma randomBytes_negative (size : Z) (s : St) :
  (size < 0)%Z ->
  randomBytes size s = (Throw (RangeError "ERR_OUT_OF_RANGE: size"), s).
Proof.
  intros Hneg. unfold randomBytes.
  destruct (size <? 0)%Z eqn:E1; [reflexivity|].
  apply Z.ltb_ge in E1. lia.
Qed.

Lemma randomBytes_nonempty (size : Z) (s : St) :
  (0 < size)%Z -> map (entropy s) (seq (cursor s) (Z.to_nat size)) <> [].
Proof.
  intros Hpos. destruct (Z.to_nat size) eqn:E; [lia | discriminate].
Qed.

Lemma random_length (size : Z) (s : St) :
  (0 <= size)%Z ->
  Z.of_nat (length (map (entropy s) (seq (cursor s) (Z.to_nat size)))) = size.
Proof. intros Hpos. rewrite length_map, length_seq. lia. Qed.

Lemma Buffer_toString_fits (buf : list byte) (s : St) :
  (2 * Z.of_nat (length buf) <= kStringMaxLength)%Z ->
  Buffer_toString buf s = (Ok (toString_hex buf), s).
Proof.
  intros Hfit. unfold Buffer_toString.
  destruct (kStringMaxLength <? 2 * Z.of_nat (length buf))%Z eqn:E;
    [apply Z.ltb_lt in E; lia | reflexivity].
Qed.

Lemma Buffer_toString_too_long (buf : list byte) (s : St) :
  (kStringMaxLength < 2 * Z.of_nat (length buf))%Z ->
  Buffer_toString buf s = (Throw (Error "ERR_STRING_TOO_LONG"), s).
Proof.
  intros Hlong. unfold Buffer_toString.
  destruct (kStringMaxLength <? 2 * Z.of_nat (length buf))%Z eqn:E;
    [reflexivity | apply Z.ltb_ge in E; lia].
Qed.

(** A token length whose hex encoding fits a string is one the random
    source accepts. *)
Lemma fits_in_range (size : Z) :
  (0 <= 2 * size <= kStringMaxLength)%Z -> (0 <= size <= kMaxLength)%Z.
Proof. unfold kStringMaxLength, kMaxLength. simpl. lia. Qed.

End Minting.

Section Issue.

Variables (csrfConfig : CsrfConfig) (csrf : Csrf).

(** The instance checks the storage kind the module variable designates. *)
Hypothesis same_storage : cfg_storage csrfConfig = Some (storage csrf).

(** With the designated store on the request both prerequisite checks pass. *)
Lemma prerequisites_pass (s : St) (m : gmap string jsval) :
  scope_of csrf (req s) = Some m ->
  storage_missing csrfConfig STORAGE.SESSION (session (req s)) s = (Ok false, s) /\
  storage_missing csrfConfig STORAGE.COOKIE (cookies (req s)) s = (Ok false, s).
Proof.
  unfold scope_of, storage_missing. rewrite same_storage.
  destruct (decide (type (storage csrf) = Some STORAGE.SESSION)) as [Hs|Hs];
    [|destruct (decide (type (storage csrf) = Some STORAGE.COOKIE)) as [Hc|Hc]];
    intros Hm; [| |discriminate].
  - rewrite Hm, Hs. split; reflexivity.
  - rewrite Hm, Hc. split; reflexivity.
Qed.

(** A token is there: nothing is minted, nothing is written. *)
Lemma middleware_present (s : St) (m : gmap string jsval) :
  scope_of csrf (req s) = Some m ->
  truthy (canonical csrf m) = true ->
  exists sc, scope_kind csrf = Some sc /\
    middleware csrfConfig csrf s =
    (Ok tt, logged s [EvRead sc (param csrf); EvNext None]).
Proof.
  intros Hm Htr.
  destruct (prerequisites_pass s m Hm) as [Hp1 Hp2].
  destruct (getToken_present csrf s m Hm) as [sc [Hk Hg]].
  exists sc. split; [exact Hk|].
  unfold middleware, try_catch, get_req. unfold mbind, M_bind. simpl.
  rewrite Hp1. simpl. rewrite Hp2. simpl. rewrite Hg, Htr. simpl.
  unfold logged. simpl. by rewrite <- app_assoc.
Qed.

(** A negative [tokenLength]: the random source throws, the [catch]
    hands the error to the continuation, nothing is written. *)
Lemma middleware_range_error (s : St) (m : gmap string jsval) :
  scope_of csrf (req s) = Some m ->
  truthy (canonical csrf m) = false ->
  (tokenLength csrf < 0)%Z ->
  exists sc, scope_kind csrf = Some sc /\
    middleware csrfConfig csrf s =
    (Ok tt, logged s [EvRead sc (param csrf);
                      EvError (RangeError "ERR_OUT_OF_RANGE: size");
                      EvNext (Some (RangeError "ERR_OUT_OF_RANGE: size"))]).
Proof.
  intros Hm Hf Hneg.
  destruct (prerequisites_pass s m Hm) as [Hp1 Hp2].
  destruct (getToken_present csrf s m Hm) as [sc [Hk Hg]].
  exists sc. split; [exact Hk|].
  unfold middleware, try_catch, get_req. unfold mbind, M_bind. simpl.
  rewrite Hp1. simpl. rewrite Hp2. simpl. rewrite Hg, Hf. simpl.
  rewrite randomBytes_negative by exact Hneg.
  unfold logged, next, emit. simpl. by rewrite <- !app_assoc.
Qed.

(** No token there and a [tokenLength] whose encoding fits a string: a
    token is minted, written to the designated store and remembered on the
    request. *)
Lemma middleware_mint (s : St) (m : gmap string jsval) (sc : scope) :
  scope_kind csrf = Some sc ->
  scope_of csrf (req s) = Some m ->
  truthy (canonical csrf m) = false ->
  (0 <= 2 * tokenLength csrf <= kStringMaxLength)%Z ->
  let token := toString_hex
    (map (entropy s) (seq (cursor s) (Z.to_nat (tokenLength csrf)))) in
  middleware csrfConfig csrf s =
  (Ok tt,
   mkSt (mkReq (method (req s))
               (match sc with
                | SessionScope => Some (<[param csrf := VStr token]> m)
                | CookieScope => session (req s)
                end)
               (cookies (req s)) (body (req s)) (headers (req s)) (VStr token))
        (match sc with
         | SessionScope => res s
         | CookieScope =>
             mkRes (statusCode (res s)) (sent (res s))
                   (cookie_ops (res s) ++
                    [SetCookie (param csrf) token (options (storage csrf))])
                   (locals (res s))
         end)
        (entropy s) (cursor s + Z.to_nat (tokenLength csrf))
        (trace s ++ [EvRead sc (param csrf);
                     EvInfo "CREATE CSRF TOKEN:" (VStr token);
                     EvWrite sc (param csrf) token;
                     EvNext None])).
Proof.
  intros Hk Hm Hf Hrange token.
  destruct (prerequisites_pass s m Hm) as [Hp1 Hp2].
  destruct (getToken_present csrf s m Hm) as [sc' [Hk' Hg]].
  rewrite Hk in Hk'. injection Hk' as <-.
  unfold middleware, try_catch, get_req. unfold mbind, M_bind. simpl.
  rewrite Hp1. simpl. rewrite Hp2. simpl. rewrite Hg, Hf. simpl.
  rewrite randomBytes_in_range by (apply fits_in_range; exact Hrange). simpl.
  rewrite Buffer_toString_fits by (rewrite random_length; lia). simpl.
  fold token.
  revert Hm Hk. unfold scope_of, scope_kind.
  destruct (decide (type (storage csrf) = Some STORAGE.SESSION)) as [Hs|Hs];
    [|destruct (decide (type (storage csrf) = Some STORAGE.COOKIE)) as [Hc|Hc]];
    intros Hm Hk; [| |discriminate]; injection Hk as <-.
  - unfold write_session, get_req, set_req, next, emit. unfold mbind, M_bind.
    simpl. rewrite Hm. simpl. by rewrite <- !app_assoc.
  - unfold res_cookie, get_res, set_res, get_req, set_req, next, emit.
    unfold mbind, M_bind. simpl. by rewrite <- !app_assoc.
Qed.

(** No token there and a [tokenLength] the random source accepts but whose
    encoding does not fit a string: the bytes are drawn, [toString] throws,
    the [catch] hands the error to the continuation, nothing is written. *)
Lemma middleware_too_long (s : St) (m : gmap string jsval) :
  scope_of csrf (req s) = Some m ->
  truthy (canonical csrf m) = false ->
  (kStringMaxLength < 2 * tokenLength csrf)%Z ->
  (tokenLength csrf <= kMaxLength)%Z ->
  exists sc, scope_kind csrf = Some sc /\
    middleware csrfConfig csrf s =
    (Ok tt,
     mkSt (req s) (res s) (entropy s)
          (cursor s + Z.to_nat (tokenLength csrf))
          (trace s ++ [EvRead sc (param csrf);
                       EvError (Error "ERR_STRING_TOO_LONG");
                       EvNext (Some (Error "ERR_STRING_TOO_LONG"))])).
Proof.
  intros Hm Hf Hlong Hmax.
  assert (Hpos : (0 <= tokenLength csrf)%Z)
    by (unfold kStringMaxLength in Hlong; lia).
  destruct (prerequisites_pass s m Hm) as [Hp1 Hp2].
  destruct (getToken_present csrf s m Hm) as [sc [Hk Hg]].
  exists sc. split; [exact Hk|].
  unfold middleware, try_catch, get_req. unfold mbind, M_bind. simpl.
  rewrite Hp1. simpl. rewrite Hp2. simpl. rewrite Hg, Hf. simpl.
  rewrite randomBytes_in_range by lia. simpl.
  rewrite Buffer_toString_too_long by (rewrite random_length; lia). simpl.
  unfold next, emit. simpl. by rewrite <- !app_assoc.
Qed.

End Issue.

(** [setTokenLocalsParam] on a request that presents the designated store. *)
Lemma setTokenLocalsParam_present (csrf : Csrf) (s : St) (m : gmap string jsval) :
  scope_of csrf (req s) = Some m ->
  exists sc, scope_kind csrf = Some sc /\
    setTokenLocalsParam csrf s =
    (Ok tt,
     mkSt (req s)
          (mkRes (statusCode (res s)) (sent (res s)) (cookie_ops (res s))
                 (<[value csrf := js_or (canonical csrf m) (currentCsrfToken (req s))]>
                    (locals (res s))))
          (entropy s) (cursor s)
          (trace s ++ [EvRead sc (param csrf); EvNext None])).
Proof.
  intros Hm. destruct (getToken_present csrf s m Hm) as [sc [Hk Hg]].
  exists sc. split; [exact Hk|].
  unfold setTokenLocalsParam, get_req, get_res, set_res, next, emit.
  unfold mbind, M_bind. rewrite Hg. simpl. by rewrite <- app_assoc.
Qed.

(** * The claims *)

Lemma getToken_null_or_truthy (csrf : Csrf) (s : St) (v : jsval) :
  fst (getToken csrf s) = Ok v -> v <> VNull -> truthy v = true.
Proof.
  unfold getToken.
  destruct (decide (type (storage csrf) = Some STORAGE.SESSION)) as [Hs|Hs];
    [|destruct (decide (type (storage csrf) = Some STORAGE.COOKIE)) as [Hc|Hc]].
  - unfold read_session, mbind, M_bind, get_req. simpl.
    destruct (session (req s)) as [m|]; simpl; [|discriminate].
    intros [= <-]. unfold js_or. destruct (truthy (js_get m (param csrf))) eqn:E; congruence.
  - unfold read_cookie, mbind, M_bind, get_req. simpl.
    destruct (cookies (req s)) as [m|]; simpl; [|discriminate].
    intros [= <-]. unfold js_or. destruct (truthy (js_get m (param csrf))) eqn:E; congruence.
  - simpl. intros [= <-]. congruence.
Qed.

Lemma scope_of_session (csrf : Csrf) (r : Req) :
  scope_kind csrf = Some SessionScope -> scope_of csrf r = session r.
Proof. unfold scope_kind, scope_of. by repeat case_decide. Qed.

Lemma scope_of_cookie (csrf : Csrf) (r : Req) :
  scope_kind csrf = Some CookieScope -> scope_of csrf r = cookies r.
Proof. unfold scope_kind, scope_of. by repeat case_decide. Qed.

Lemma canonical_falsy (csrf : Csrf) (m : gmap string jsval) :
  truthy (js_get m (param csrf)) = false -> canonical csrf m = VNull.
Proof. unfold canonical, js_or. by intros ->. Qed.

Lemma canonical_truthy (csrf : Csrf) (m : gmap string jsval) (v : jsval) :
  js_get m (param csrf) = v -> truthy v = true -> canonical csrf m = v.
Proof. unfold canonical, js_or. intros -> Htr. by rewrite Htr. Qed.

(** C1, refuted for 'cookie' storage. A POST whose cookie and body carry
    the same token is accepted; the response tells the client to clear the
    cookie and nothing else is kept. The very same request, presented once
    more, is accepted once more. *)
Lemma cookie_token_validates_twice :
  let csrf := spread csrf_initial (config_of 16 STORAGE.COOKIE "_csrf") in
  let accepted := [EvRead CookieScope "_csrf";
                   EvInfo "DELETE CSRF TOKEN: " (VStr "2aff");
                   EvClear CookieScope "_csrf";
                   EvNext None] in
  let s1 := snd (protect csrf post_cookie_valid) in
  trace s1 = accepted /\
  cookie_ops (res s1) = [ClearCookie "_csrf"] /\
  req s1 = req post_cookie_valid /\
  trace (snd (protect csrf (start (req s1) fresh_res sample_entropy))) = accepted.
Proof. vm_compute. repeat split; reflexivity. Qed.

(** C1 as amended. When a protected request submits the token that the
    designated store holds, [protect] succeeds and its trace is: the read,
    the log line, the clear, and only then the call of the continuation.
    With 'session' storage the clear deletes the entry from the session
    object and leaves the response alone, and every later protected request
    carrying that session and the same token value is rejected. With
    'cookie' storage the clear is one [res.clearCookie(param)] on the
    response and the request stays as it was: a later protected request
    with the same token value is rejected when its cookies hold no truthy
    value under [param], and accepted again when it presents the same
    cookies. *)
Theorem protect_single_use (csrf : Csrf) (s : St) (cond token canon : jsval) :
  protectCondition csrf (req s) = Ok cond ->
  truthy cond = true ->
  getTransmitToken csrf (req s) = Ok token ->
  fst (getToken csrf s) = Ok canon ->
  canon <> VNull ->
  token = canon ->
  exists sc s1,
    scope_kind csrf = Some sc /\
    protect csrf s = (Ok tt, s1) /\
    trace s1 = trace s ++ [EvRead sc (param csrf);
                           EvInfo "DELETE CSRF TOKEN: " token;
                           EvClear sc (param csrf);
                           EvNext None] /\
    match sc with
    | SessionScope =>
        (exists m1, session (req s1) = Some m1 /\ m1 !! param csrf = None) /\
        res s1 = res s /\
        forall (s2 : St) (cond2 : jsval) (rs : Res) (evs : list event),
          session (req s2) = session (req s1) ->
          protectCondition csrf (req s2) = Ok cond2 ->
          truthy cond2 = true ->
          getTransmitToken csrf (req s2) = Ok token ->
          errorResponse csrf (req s2) (res s2) = Returns rs evs ->
          protect csrf s2 =
          (Ok tt, mkSt (req s2) rs (entropy s2) (cursor s2)
                       (trace s2 ++ [EvRead sc (param csrf)] ++ evs))
    | CookieScope =>
        req s1 = req s /\
        res s1 = mkRes (statusCode (res s)) (sent (res s))
                       (cookie_ops (res s) ++ [ClearCookie (param csrf)])
                       (locals (res s)) /\
        (forall (s2 : St) (jar : gmap string jsval) (cond2 : jsval)
                (rs : Res) (evs : list event),
           cookies (req s2) = Some jar ->
           truthy (js_get jar (param csrf)) = false ->
           protectCondition csrf (req s2) = Ok cond2 ->
           truthy cond2 = true ->
           getTransmitToken csrf (req s2) = Ok token ->
           errorResponse csrf (req s2) (res s2) = Returns rs evs ->
           protect csrf s2 =
           (Ok tt, mkSt (req s2) rs (entropy s2) (cursor s2)
                        (trace s2 ++ [EvRead sc (param csrf)] ++ evs))) /\
        (forall (s2 : St) (cond2 : jsval),
           cookies (req s2) = cookies (req s) ->
           protectCondition csrf (req s2) = Ok cond2 ->
           truthy cond2 = true ->
           getTransmitToken csrf (req s2) = Ok token ->
           exists s2',
             protect csrf s2 = (Ok tt, s2') /\
             trace s2' = trace s2 ++ [EvRead sc (param csrf);
                                      EvInfo "DELETE CSRF TOKEN: " token;
                                      EvClear sc (param csrf);
                                      EvNext None])
    end.
Proof.
  intros Hc Ht Htok Hget Hpresent <-.
  pose proof (getToken_null_or_truthy csrf s token Hget Hpresent) as Htr.
  destruct (getToken_truthy csrf s token Hget Htr) as [m [Hm Hcan]].
  destruct (getToken_present csrf s m Hm) as [sc [Hk _]].
  pose proof (protect_accept_state csrf s cond token m sc Hc Ht Htok Htr Hm Hcan Hk)
    as Hrun.
  assert (Hrej : forall (s2 : St) (m2 : gmap string jsval) (cond2 : jsval)
                        (rs : Res) (evs : list event),
            scope_of csrf (req s2) = Some m2 ->
            canonical csrf m2 = VNull ->
            protectCondition csrf (req s2) = Ok cond2 ->
            truthy cond2 = true ->
            getTransmitToken csrf (req s2) = Ok token ->
            errorResponse csrf (req s2) (res s2) = Returns rs evs ->
            protect csrf s2 =
            (Ok tt, mkSt (req s2) rs (entropy s2) (cursor s2)
                         (trace s2 ++ [EvRead sc (param csrf)] ++ evs))).
  { intros s2 m2 cond2 rs evs Hm2 Hnull Hc2 Ht2 Htok2 Herr.
    destruct (getToken_present csrf s2 m2 Hm2) as [sc' [Hk' Hg]].
    rewrite Hk in Hk'. injection Hk' as <-. rewrite Hnull in Hg.
    rewrite (protect_reject_mismatch csrf s2 _ cond2 token VNull rs evs
               Hc2 Ht2 Htok2 Htr Hg (strict_eq_truthy_null token Htr) Herr).
    simpl. by rewrite <- app_assoc. }
  exists sc. eexists. split; [exact Hk|]. split; [exact Hrun|].
  split; [reflexivity|]. destruct sc; simpl.
  - split; [eexists; split; [reflexivity | apply lookup_delete_eq]|].
    split; [reflexivity|].
    intros s2 cond2 rs evs Hsess. apply (Hrej s2 (delete (param csrf) m)).
    + by rewrite (scope_of_session csrf _ Hk), Hsess.
    + apply canonical_absent, lookup_delete_eq.
  - split; [reflexivity|]. split; [reflexivity|]. split.
    + intros s2 jar cond2 rs evs Hjar Hgone. apply (Hrej s2 jar).
      * by rewrite (scope_of_cookie csrf _ Hk).
      * by apply canonical_falsy.
    + intros s2 cond2 Hsame Hc2 Ht2 Htok2.
      assert (Hm2 : scope_of csrf (req s2) = Some m).
      { rewrite (scope_of_cookie csrf _ Hk), Hsame.
        by rewrite <- (scope_of_cookie csrf _ Hk). }
      destruct (getToken_present csrf s2 m Hm2) as [sc' [_ Hg]].
      assert (Hget2 : fst (getToken csrf s2) = Ok token)
        by (by rewrite Hg, Hcan).
      destruct (protect_accept csrf s2 cond2 token Hc2 Ht2 Htok2 Htr Hget2)
        as [sc'' [s2' [Hk'' [Hrun2 Htrace2]]]].
      rewrite Hk in Hk''. injection Hk'' as <-.
      by exists s2'.
Qed.

Lemma protect_single_use_witness :
  exists sc s1,
    scope_kind csrf_initial = Some sc /\
    protect csrf_initial post_valid = (Ok tt, s1) /\
    trace s1 = trace post_valid ++ [EvRead sc (param csrf_initial);
                                    EvInfo "DELETE CSRF TOKEN: " (VStr "2aff");
                                    EvClear sc (param csrf_initial);
                                    EvNext None] /\
    match sc with
    | SessionScope =>
        (exists m1, session (req s1) = Some m1 /\
                    m1 !! param csrf_initial = None) /\
        res s1 = res post_valid /\
        forall (s2 : St) (cond2 : jsval) (rs : Res) (evs : list event),
          session (req s2) = session (req s1) ->
          protectCondition csrf_initial (req s2) = Ok cond2 ->
          truthy cond2 = true ->
          getTransmitToken csrf_initial (req s2) = Ok (VStr "2aff") ->
          errorResponse csrf_initial (req s2) (res s2) = Returns rs evs ->
          protect csrf_initial s2 =
          (Ok tt, mkSt (req s2) rs (entropy s2) (cursor s2)
                       (trace s2 ++ [EvRead sc (param csrf_initial)] ++ evs))
    | CookieScope =>
        req s1 = req post_valid /\
        res s1 = mkRes (statusCode (res post_valid)) (sent (res post_valid))
                       (cookie_ops (res post_valid) ++
                        [ClearCookie (param csrf_initial)])
                       (locals (res post_valid)) /\
        (forall (s2 : St) (jar : gmap string jsval) (cond2 : jsval)
                (rs : Res) (evs : list event),
           cookies (req s2) = Some jar ->
           truthy (js_get jar (param csrf_initial)) = false ->
           protectCondition csrf_initial (req s2) = Ok cond2 ->
           truthy cond2 = true ->
           getTransmitToken csrf_initial (req s2) = Ok (VStr "2aff") ->
           errorResponse csrf_initial (req s2) (res s2) = Returns rs evs ->
           protect csrf_initial s2 =
           (Ok tt, mkSt (req s2) rs (entropy s2) (cursor s2)
                        (trace s2 ++ [EvRead sc (param csrf_initial)] ++ evs))) /\
        (forall (s2 : St) (cond2 : jsval),
           cookies (req s2) = cookies (req post_valid) ->
           protectCondition csrf_initial (req s2) = Ok cond2 ->
           truthy cond2 = true ->
           getTransmitToken csrf_initial (req s2) = Ok (VStr "2aff") ->
           exists s2',
             protect csrf_initial s2 = (Ok tt, s2') /\
             trace s2' = trace s2 ++ [EvRead sc (param csrf_initial);
                                      EvInfo "DELETE CSRF TOKEN: " (VStr "2aff");
                                      EvClear sc (param csrf_initial);
                                      EvNext None])
    end.
Proof.
  apply (protect_single_use csrf_initial post_valid
           (VBool true) (VStr "2aff") (VStr "2aff")).
  - reflexivity.
  - reflexivity.
  - reflexivity.
  - reflexivity.
  - discriminate.
  - reflexivity.
Defined.

(** C2. Rejection. On a protected request whose submitted token is absent
    (falsy) or differs from the canonical token read from the store,
    [protect] hands over to the rejection hook and that is all it does: the
    response is the one the hook leaves, and between the start and the
    hook's own events the trace holds no call of the continuation. With the
    hook as initialised the response has status 403, the body
    'CSRF token invalid', and no event is added by the hook. *)
Theorem protect_rejects_invalid_token (csrf : Csrf) (s : St)
    (cond token : jsval) (rs : Res) (evs : list event) :
  protectCondition csrf (req s) = Ok cond ->
  truthy cond = true ->
  getTransmitToken csrf (req s) = Ok token ->
  (truthy token = false \/
   exists canon, fst (getToken csrf s) = Ok canon /\ token <> canon) ->
  errorResponse csrf (req s) (res s) = Returns rs evs ->
  (exists pre,
     protect csrf s =
     (Ok tt, mkSt (req s) rs (entropy s) (cursor s) (trace s ++ pre ++ evs)) /\
     forallb (fun ev => negb (is_next ev)) pre = true) /\
  (errorResponse csrf = default_errorResponse ->
   statusCode rs = 403%Z /\ sent rs = Some "CSRF token invalid" /\ evs = []).
Proof.
  intros Hc Ht Htok Hinv Herr. split.
  - destruct (protect_reject csrf s cond token rs evs Hc Ht Htok) as [pre [Hq Hrun]].
    + destruct Hinv as [Hf | [canon [Hcanon Hne]]]; [by left|].
      right. exists canon. split; [exact Hcanon|]. by apply strict_eq_neq.
    + exact Herr.
    + exists pre. split; [exact Hrun|].
      apply forallb_forall. intros ev Hin.
      pose proof (proj1 (forallb_forall _ _) Hq ev Hin) as Hev.
      unfold quiet in Hev. by destruct (is_next ev).
  - intros Hdef. rewrite Hdef in Herr. unfold default_errorResponse in Herr.
    injection Herr as <- <-. auto.
Qed.

Lemma protect_rejects_invalid_token_witness :
  (exists pre,
     protect csrf_initial post_wrong =
     (Ok tt, mkSt (req post_wrong)
                  (mkRes 403 (Some "CSRF token invalid") [] ∅)
                  (entropy post_wrong) (cursor post_wrong)
                  (trace post_wrong ++ pre ++ [])) /\
     forallb (fun ev => negb (is_next ev)) pre = true) /\
  (errorResponse csrf_initial = default_errorResponse ->
   statusCode (mkRes 403 (Some "CSRF token invalid") [] ∅) = 403%Z /\
   sent (mkRes 403 (Some "CSRF token invalid") [] ∅) = Some "CSRF token invalid" /\
   @nil event = []).
Proof.
  apply (protect_rejects_invalid_token csrf_initial post_wrong
           (VBool true) (VStr "0000")).
  - reflexivity.
  - reflexivity.
  - reflexivity.
  - right. exists (VStr "2aff"). split; [reflexivity | discriminate].
  - reflexivity.
Defined.

(** C3. Policy bypass. When [protectCondition] answers with a falsy value
    [protect] leaves request, response and random source as they are and
    adds exactly one event to the trace, the plain call of the continuation:
    no read of the canonical token, no clear. This holds whatever the
    request carries, also when it has no session and no cookies at all. *)
Theorem protect_policy_bypass (csrf : Csrf) (s : St) (cond : jsval) :
  protectCondition csrf (req s) = Ok cond ->
  truthy cond = false ->
  protect csrf s =
  (Ok tt, mkSt (req s) (res s) (entropy s) (cursor s) (trace s ++ [EvNext None])).
Proof. intros Hc Ht. by rewrite (protect_skip csrf s cond Hc Ht). Qed.

Lemma protect_policy_bypass_witness :
  protect csrf_initial get_bare =
  (Ok tt, mkSt (req get_bare) (res get_bare) (entropy get_bare)
               (cursor get_bare) (trace get_bare ++ [EvNext None])).
Proof.
  apply (protect_policy_bypass csrf_initial get_bare (VBool false)).
  - reflexivity.
  - reflexivity.
Defined.

(** C5. Rejection leaves the canonical token alone. On the rejection path
    of [protect] the request (and with it the session) is unchanged, the
    response is the one the rejection hook returns, and the events before
    the hook's own contain no write and no clear. So when the hook does not
    touch the response's cookie operations, which the hook as initialised
    does not, the designated store is, for the next request, exactly what
    this request presented. *)
Theorem protect_rejection_keeps_token (csrf : Csrf) (s : St)
    (cond token : jsval) (rs : Res) (evs : list event) :
  protectCondition csrf (req s) = Ok cond ->
  truthy cond = true ->
  getTransmitToken csrf (req s) = Ok token ->
  (truthy token = false \/
   exists canon, fst (getToken csrf s) = Ok canon /\ token <> canon) ->
  errorResponse csrf (req s) (res s) = Returns rs evs ->
  let s' := snd (protect csrf s) in
  req s' = req s /\
  res s' = rs /\
  (exists pre, trace s' = trace s ++ pre ++ evs /\
     forallb (fun ev => negb (is_write ev || is_clear ev)) pre = true) /\
  (cookie_ops rs = cookie_ops (res s) ->
   scope_after csrf s s' = scope_of csrf (req s)) /\
  (errorResponse csrf = default_errorResponse ->
   cookie_ops rs = cookie_ops (res s) /\ evs = []).
Proof.
  intros Hc Ht Htok Hinv Herr.
  destruct (protect_reject csrf s cond token rs evs Hc Ht Htok) as [pre [Hq Hrun]].
  { destruct Hinv as [Hf | [canon [Hcanon Hne]]]; [by left|].
    right. exists canon. split; [exact Hcanon|]. by apply strict_eq_neq. }
  { exact Herr. }
  rewrite Hrun. simpl. split; [reflexivity|]. split; [reflexivity|].
  split; [|split].
  - exists pre. split; [reflexivity|].
    apply forallb_forall. intros ev Hin.
    pose proof (proj1 (forallb_forall _ _) Hq ev Hin) as Hev.
    unfold quiet in Hev.
    destruct (is_next ev), (is_write ev), (is_clear ev); simpl in *; congruence.
  - intros Hops. unfold scope_after, scope_of, new_cookie_ops. simpl.
    rewrite Hops. repeat case_decide; try reflexivity.
    rewrite drop_all. simpl. by destruct (cookies (req s)).
  - intros Hdef. rewrite Hdef in Herr. unfold default_errorResponse in Herr.
    injection Herr as <- <-. auto.
Qed.

Lemma protect_rejection_keeps_token_witness :
  let rs := mkRes 403 (Some "CSRF token invalid") [] ∅ in
  let s' := snd (protect csrf_initial post_missing) in
  req s' = req post_missing /\
  res s' = rs /\
  (exists pre, trace s' = trace post_missing ++ pre ++ [] /\
     forallb (fun ev => negb (is_write ev || is_clear ev)) pre = true) /\
  (cookie_ops rs = cookie_ops (res post_missing) ->
   scope_after csrf_initial post_missing s' = scope_of csrf_initial (req post_missing)) /\
  (errorResponse csrf_initial = default_errorResponse ->
   cookie_ops rs = cookie_ops (res post_missing) /\ @nil event = []).
Proof.
  apply (protect_rejection_keeps_token csrf_initial post_missing
           (VBool true) VUndefined).
  - reflexivity.
  - reflexivity.
  - reflexivity.
  - left. reflexivity.
  - reflexivity.
Defined.

(** C10. Empty scope. On a protected request for which [getToken] yields
    [null] (no truthy value under [param] in the designated store, or a
    storage type that is neither 'session' nor 'cookie'), [protect] takes
    the rejection path whatever value the extraction hook returned: request
    unchanged, response the one of the rejection hook, and before the
    hook's own events no clear, no write and no call of the continuation. *)
Theorem protect_rejects_on_empty_scope (csrf : Csrf) (s : St)
    (cond token : jsval) (rs : Res) (evs : list event) :
  protectCondition csrf (req s) = Ok cond ->
  truthy cond = true ->
  getTransmitToken csrf (req s) = Ok token ->
  fst (getToken csrf s) = Ok VNull ->
  errorResponse csrf (req s) (res s) = Returns rs evs ->
  exists pre,
    protect csrf s =
    (Ok tt, mkSt (req s) rs (entropy s) (cursor s) (trace s ++ pre ++ evs)) /\
    forallb quiet pre = true.
Proof.
  intros Hc Ht Htok Hnull Herr.
  destruct (protect_reject csrf s cond token rs evs Hc Ht Htok) as [pre [Hq Hrun]].
  - destruct (truthy token) eqn:Etok; [|by left].
    right. exists VNull. split; [exact Hnull|].
    by apply strict_eq_truthy_null.
  - exact Herr.
  - by exists pre.
Qed.

Lemma protect_rejects_on_empty_scope_witness :
  exists pre,
    protect csrf_initial post_replayed =
    (Ok tt, mkSt (req post_replayed)
                 (mkRes 403 (Some "CSRF token invalid") [] ∅)
                 (entropy post_replayed) (cursor post_replayed)
                 (trace post_replayed ++ pre ++ [])) /\
    forallb quiet pre = true.
Proof.
  apply (protect_rejects_on_empty_scope csrf_initial post_replayed
           (VBool true) (VStr "2aff")).
  - reflexivity.
  - reflexivity.
  - reflexivity.
  - reflexivity.
  - reflexivity.
Defined.

Lemma canonical_insert (csrf : Csrf) (m : gmap string jsval) (token : string) :
  canonical csrf (<[param csrf := VStr token]> m) = js_or (VStr token) VNull.
Proof. unfold canonical, js_get. by rewrite lookup_insert_eq. Qed.

(** A run of the middleware on a present store, with a token length of
    at least 1 whose encoding fits a string, leaves a truthy token. *)
Lemma middleware_leaves_token (csrfConfig : CsrfConfig) (csrf : Csrf) (s : St)
    (m : gmap string jsval) :
  cfg_storage csrfConfig = Some (storage csrf) ->
  scope_of csrf (req s) = Some m ->
  (0 < 2 * tokenLength csrf <= kStringMaxLength)%Z ->
  exists sc s' tok,
    scope_kind csrf = Some sc /\
    middleware csrfConfig csrf s = (Ok tt, s') /\
    truthy tok = true /\
    token_left csrf s s' tok /\
    (exists m', scope_of csrf (req s') = Some m' /\
                js_or (canonical csrf m') (currentCsrfToken (req s')) = tok) /\
    statusCode (res s') = statusCode (res s) /\
    sent (res s') = sent (res s) /\
    locals (res s') = locals (res s).
Proof.
  intros Hsame Hm Hlen.
  destruct (getToken_present csrf s m Hm) as [sc [Hk _]].
  destruct (truthy (canonical csrf m)) eqn:Hcur.
  - destruct (middleware_present csrfConfig csrf Hsame s m Hm Hcur)
      as [sc' [Hk' Hrun]].
    rewrite Hk in Hk'. injection Hk' as <-.
    destruct (js_or_null_truthy _ Hcur) as [Hval Hv].
    exists sc, (logged s [EvRead sc (param csrf); EvNext None]),
      (js_get m (param csrf)).
    split; [exact Hk|]. split; [exact Hrun|]. split; [exact Hv|].
    split; [|split; [|by simpl]].
    + unfold token_left. rewrite Hk. destruct sc.
      * exists m. split; [|reflexivity]. simpl.
        by rewrite <- (scope_of_session csrf _ Hk).
      * left. exists m. split; [|by split].
        by rewrite <- (scope_of_cookie csrf _ Hk).
    + exists m. split; [exact Hm|]. simpl.
      rewrite (canonical_truthy csrf m _ eq_refl Hv).
      unfold js_or. by rewrite Hv.
  - pose proof (middleware_mint csrfConfig csrf Hsame s m sc Hk Hm Hcur) as Hrun.
    specialize (Hrun ltac:(lia)). simpl in Hrun.
    set (token := toString_hex
           (map (entropy s) (seq (cursor s) (Z.to_nat (tokenLength csrf))))) in *.
    assert (Htok : truthy (VStr token) = true).
    { apply toString_hex_truthy, randomBytes_nonempty. lia. }
    eexists sc, _, (VStr token).
    split; [exact Hk|]. split; [exact Hrun|]. split; [exact Htok|].
    split; [|split].
    + unfold token_left. rewrite Hk. destruct sc; simpl.
      * eexists. split; [reflexivity|]. unfold js_get. by rewrite lookup_insert_eq.
      * right. by exists token.
    + destruct sc.
      * eexists. split.
        { rewrite (scope_of_session csrf _ Hk). reflexivity. }
        rewrite canonical_insert. unfold js_or. by rewrite !Htok.
      * exists m. split.
        { rewrite (scope_of_cookie csrf _ Hk). simpl.
          by rewrite <- (scope_of_cookie csrf _ Hk). }
        simpl. unfold js_or. by rewrite Hcur.
    + by destruct sc.
Qed.

(** C4, refuted. With 'cookie' storage a second call on the request the
    first call ran on does not find the cookie the first call set on the
    response: it mints another token and sets a second cookie. With a
    token length of 0 and 'session' storage the empty token written by the
    first call counts as absent, and the second call writes again. *)
Lemma second_issue_writes_again :
  let cookie_cfg := config_of 2 STORAGE.COOKIE "_csrf" in
  let cookie_csrf := spread csrf_initial cookie_cfg in
  let once := snd (middleware cookie_cfg cookie_csrf first_visit) in
  let twice := snd (middleware cookie_cfg cookie_csrf once) in
  let zero_cfg := config_of 0 STORAGE.SESSION "_csrf" in
  let zero_csrf := spread csrf_initial zero_cfg in
  let zero_once := snd (middleware zero_cfg zero_csrf first_visit) in
  let zero_twice := snd (middleware zero_cfg zero_csrf zero_once) in
  cookie_ops (res once) = [SetCookie "_csrf" "2aff" None] /\
  cookie_ops (res twice) =
    [SetCookie "_csrf" "2aff" None; SetCookie "_csrf" "0707" None] /\
  trace zero_twice =
    [EvRead SessionScope "_csrf"; EvInfo "CREATE CSRF TOKEN:" (VStr "");
     EvWrite SessionScope "_csrf" ""; EvNext None;
     EvRead SessionScope "_csrf"; EvInfo "CREATE CSRF TOKEN:" (VStr "");
     EvWrite SessionScope "_csrf" ""; EvNext None].
Proof. vm_compute. repeat split; reflexivity. Qed.

(** C4 as amended. Take a middleware instance whose storage kind is the
    one the module variable designates, 'session' or 'cookie', with that
    store present on the request and a token length of at least 1 whose hex
    encoding fits a string (at most 268435444 bytes). The first call leaves
    a truthy token: in the session object, or among the cookies the client
    sent, or in the cookie it sets on the response. A second call on any
    request that presents this token in the designated store leaves
    request, response and random source untouched and adds to the trace
    only the read and the call of the continuation: nothing is minted,
    nothing is written, the token stays. With 'session' storage the request
    the first call ran on is such a request. *)
Theorem issue_idempotent (csrfConfig : CsrfConfig) (csrf : Csrf) (s1 : St)
    (m : gmap string jsval) :
  cfg_storage csrfConfig = Some (storage csrf) ->
  scope_of csrf (req s1) = Some m ->
  (0 < 2 * tokenLength csrf <= kStringMaxLength)%Z ->
  exists sc s1' tok,
    scope_kind csrf = Some sc /\
    middleware csrfConfig csrf s1 = (Ok tt, s1') /\
    truthy tok = true /\
    token_left csrf s1 s1' tok /\
    (forall (s2 : St) (m2 : gmap string jsval),
       scope_of csrf (req s2) = Some m2 ->
       js_get m2 (param csrf) = tok ->
       middleware csrfConfig csrf s2 =
       (Ok tt, mkSt (req s2) (res s2) (entropy s2) (cursor s2)
                    (trace s2 ++ [EvRead sc (param csrf); EvNext None]))) /\
    (sc = SessionScope ->
     middleware csrfConfig csrf s1' =
     (Ok tt, mkSt (req s1') (res s1') (entropy s1') (cursor s1')
                  (trace s1' ++ [EvRead sc (param csrf); EvNext None]))).
Proof.
  intros Hsame Hm Hlen.
  destruct (middleware_leaves_token csrfConfig csrf s1 m Hsame Hm Hlen)
    as [sc [s1' [tok [Hk [Hrun [Htr [Hleft _]]]]]]].
  assert (Hsecond : forall (s2 : St) (m2 : gmap string jsval),
            scope_of csrf (req s2) = Some m2 ->
            js_get m2 (param csrf) = tok ->
            middleware csrfConfig csrf s2 =
            (Ok tt, mkSt (req s2) (res s2) (entropy s2) (cursor s2)
                         (trace s2 ++ [EvRead sc (param csrf); EvNext None]))).
  { intros s2 m2 Hm2 Hval.
    pose proof (canonical_truthy csrf m2 tok Hval Htr) as Hcan.
    destruct (middleware_present csrfConfig csrf Hsame s2 m2 Hm2)
      as [sc' [Hk' Hrun2]]; [by rewrite Hcan|].
    rewrite Hk in Hk'. injection Hk' as <-. exact Hrun2. }
  exists sc, s1', tok. split; [exact Hk|]. split; [exact Hrun|].
  split; [exact Htr|]. split; [exact Hleft|]. split; [exact Hsecond|].
  intros ->. unfold token_left in Hleft. rewrite Hk in Hleft.
  destruct Hleft as [m' [Hsess Hval]].
  apply (Hsecond s1' m'); [|exact Hval].
  by rewrite (scope_of_session csrf _ Hk).
Qed.

Lemma issue_idempotent_witness :
  let cfg := config_of 2 STORAGE.COOKIE "_csrf" in
  let csrf := spread csrf_initial cfg in
  exists sc s1' tok,
    scope_kind csrf = Some sc /\
    middleware cfg csrf first_visit = (Ok tt, s1') /\
    truthy tok = true /\
    token_left csrf first_visit s1' tok /\
    (forall (s2 : St) (m2 : gmap string jsval),
       scope_of csrf (req s2) = Some m2 ->
       js_get m2 (param csrf) = tok ->
       middleware cfg csrf s2 =
       (Ok tt, mkSt (req s2) (res s2) (entropy s2) (cursor s2)
                    (trace s2 ++ [EvRead sc (param csrf); EvNext None]))) /\
    (sc = SessionScope ->
     middleware cfg csrf s1' =
     (Ok tt, mkSt (req s1') (res s1') (entropy s1') (cursor s1')
                  (trace s1' ++ [EvRead sc (param csrf); EvNext None]))).
Proof.
  apply (issue_idempotent (config_of 2 STORAGE.COOKIE "_csrf")
           (spread csrf_initial (config_of 2 STORAGE.COOKIE "_csrf"))
           first_visit ∅).
  - reflexivity.
  - reflexivity.
  - unfold kStringMaxLength. simpl. lia.
Defined.

(** What the extraction hook as initialised computes: the body field
    [_csrf] when truthy, the header [csrf-token] otherwise. *)
Lemma default_getTransmitToken_spec (r : Req) (b h : gmap string jsval) :
  body r = Some b ->
  headers r = Some h ->
  default_getTransmitToken r = Ok (js_or (js_get b "_csrf") (js_get h "csrf-token")).
Proof.
  intros Hb Hh. unfold default_getTransmitToken, js_or. rewrite Hb, Hh.
  by destruct (truthy (js_get b "_csrf")).
Qed.

(** C8, evaluated at a customised [param]. With [param] set to 'token', a
    POST that carries the session's token in the body field 'token' is
    answered with 403: the extraction hook as initialised looks up the
    field '_csrf' whatever [param] is, and finds nothing. *)
Lemma default_getTransmitToken_ignores_param :
  let csrf := spread csrf_initial (config_of 16 STORAGE.SESSION "token") in
  let r := sample_req "POST" {["token" := VStr "2aff"]} ∅
                      {["token" := VStr "2aff"]} ∅ in
  param csrf = "token" /\
  fst (getToken csrf (start r fresh_res sample_entropy)) = Ok (VStr "2aff") /\
  getTransmitToken csrf r = Ok VUndefined /\
  protect csrf (start r fresh_res sample_entropy) =
  (Ok tt, mkSt r (mkRes 403 (Some "CSRF token invalid") [] ∅) sample_entropy 0 []).
Proof. vm_compute. repeat split; reflexivity. Qed.

(** C9, refuted at length 0. With [tokenLength] 0 the middleware raises
    nothing: it mints the empty token, writes it to the session and calls
    the continuation without an error. *)
Lemma zero_tokenLength_mints_empty_token :
  let cfg := config_of 0 STORAGE.SESSION "_csrf" in
  let csrf := spread csrf_initial cfg in
  (tokenLength csrf <= 0)%Z /\
  middleware cfg csrf first_visit =
  (Ok tt,
   mkSt (mkReq "GET" (Some {["_csrf" := VStr ""]}) (Some ∅) (Some ∅) (Some ∅)
               (VStr ""))
        fresh_res sample_entropy 0
        [EvRead SessionScope "_csrf";
         EvInfo "CREATE CSRF TOKEN:" (VStr "");
         EvWrite SessionScope "_csrf" "";
         EvNext None]).
Proof. split; [vm_compute; discriminate | vm_compute; reflexivity]. Qed.

(** C9 as amended. With a negative [tokenLength], when a token has to be
    minted, the random source raises its range error; the middleware logs
    it and passes it to the continuation. Request and response are left as
    they were: no token is produced, none is written. *)
Theorem negative_tokenLength_is_an_error (csrfConfig : CsrfConfig) (csrf : Csrf)
    (s : St) (m : gmap string jsval) :
  cfg_storage csrfConfig = Some (storage csrf) ->
  scope_of csrf (req s) = Some m ->
  truthy (canonical csrf m) = false ->
  (tokenLength csrf < 0)%Z ->
  exists sc,
    scope_kind csrf = Some sc /\
    middleware csrfConfig csrf s =
    (Ok tt, mkSt (req s) (res s) (entropy s) (cursor s)
                 (trace s ++ [EvRead sc (param csrf);
                              EvError (RangeError "ERR_OUT_OF_RANGE: size");
                              EvNext (Some (RangeError "ERR_OUT_OF_RANGE: size"))])).
Proof.
  intros Hsame Hm Hf Hneg.
  destruct (middleware_range_error csrfConfig csrf Hsame s m Hm Hf Hneg)
    as [sc [Hk Hrun]].
  exists sc. split; [exact Hk | exact Hrun].
Qed.

Lemma negative_tokenLength_is_an_error_witness :
  let cfg := config_of (-1) STORAGE.SESSION "_csrf" in
  let csrf := spread csrf_initial cfg in
  exists sc,
    scope_kind csrf = Some sc /\
    middleware cfg csrf first_visit =
    (Ok tt, mkSt (req first_visit) (res first_visit) (entropy first_visit)
                 (cursor first_visit)
                 (trace first_visit ++
                    [EvRead sc (param csrf);
                     EvError (RangeError "ERR_OUT_OF_RANGE: size");
                     EvNext (Some (RangeError "ERR_OUT_OF_RANGE: size"))])).
Proof.
  apply (negative_tokenLength_is_an_error
           (config_of (-1) STORAGE.SESSION "_csrf")
           (spread csrf_initial (config_of (-1) STORAGE.SESSION "_csrf"))
           first_visit ∅).
  - reflexivity.
  - reflexivity.
  - reflexivity.
  - simpl. lia.
Defined.

(** C7, refuted. An instance built with [param] 'a' and 2-byte tokens
    writes a 4-character token under 'a'; once a second instance has been
    built with [param] 'b' and 1-byte tokens, the very same first instance
    writes a 2-character token under 'b'. *)
Lemma second_generate_reconfigures_first_instance :
  let c1 := config_of 2 STORAGE.SESSION "a" in
  let c2 := config_of 1 STORAGE.SESSION "b" in
  let g1 := fst (generate c1 csrf_initial) in
  let issue1 := snd (generate c1 csrf_initial) in
  let g2 := fst (generate c2 g1) in
  trace (snd (issue1 g1 first_visit)) =
    [EvRead SessionScope "a"; EvInfo "CREATE CSRF TOKEN:" (VStr "2aff");
     EvWrite SessionScope "a" "2aff"; EvNext None] /\
  trace (snd (issue1 g2 first_visit)) =
    [EvRead SessionScope "b"; EvInfo "CREATE CSRF TOKEN:" (VStr "2a");
     EvWrite SessionScope "b" "2a"; EvNext None].
Proof. split; vm_compute; reflexivity. Qed.

(** Of the configuration it was built with, the middleware uses the
    storage kind alone. *)
Lemma middleware_uses_storage_kind_only (c c' : CsrfConfig) (csrf : Csrf) (s : St) :
  type <$> cfg_storage c = type <$> cfg_storage c' ->
  middleware c csrf s = middleware c' csrf s.
Proof.
  intros Hkind. unfold middleware, storage_missing.
  destruct (cfg_storage c) as [st|], (cfg_storage c') as [st'|];
    simpl in Hkind; try discriminate; [|reflexivity].
  injection Hkind as ->. reflexivity.
Qed.

(** C7 as amended. The configuration is the one module variable [csrf],
    shared by every middleware instance and by [protect] and
    [setTokenLocalsParam]. Building a second instance overwrites in it each
    property the second configuration gives and keeps each one it omits.
    From then on an instance built earlier runs exactly as any instance
    whose configuration names the same storage kind, the second instance
    included: of its own configuration only the storage kind tested by the
    prerequisite check is left, and that one it keeps, throwing as before
    when the store of its own kind is missing on the request.
    [setTokenLocalsParam] exposes under the
    merged [value] what the store holds under the merged [param];
    [protect] decides with the merged hooks, accepts the token stored under
    the merged [param] and answers a missing token with the merged
    rejection hook. *)
Theorem generate_overwrites_shared_configuration (csrf0 : Csrf)
    (c1 c2 : CsrfConfig) :
  let g1 := fst (generate c1 csrf0) in
  let issue1 := snd (generate c1 csrf0) in
  let g2 := fst (generate c2 g1) in
  let issue2 := snd (generate c2 g1) in
  let param2 := default (param g1) (cfg_param c2) in
  let value2 := default (value g1) (cfg_value c2) in
  let protectCondition2 :=
    default (protectCondition g1) (cfg_protectCondition c2) in
  let getTransmitToken2 :=
    default (getTransmitToken g1) (cfg_getTransmitToken c2) in
  let errorResponse2 := default (errorResponse g1) (cfg_errorResponse c2) in
  (param g2 = param2 /\
   value g2 = value2 /\
   storage g2 = default (storage g1) (cfg_storage c2) /\
   tokenLength g2 = default (tokenLength g1) (cfg_tokenLength c2) /\
   protectCondition g2 = protectCondition2 /\
   getTransmitToken g2 = getTransmitToken2 /\
   errorResponse g2 = errorResponse2) /\
  (forall (c : CsrfConfig) (s : St),
     type <$> cfg_storage c = type <$> cfg_storage c1 ->
     snd (generate c csrf0) g2 s = issue1 g2 s) /\
  (forall s : St,
     type <$> cfg_storage c1 = type <$> cfg_storage c2 ->
     issue1 g2 s = issue2 g2 s) /\
  (forall (s : St) (st : Storage),
     cfg_storage c1 = Some st ->
     (type st = Some STORAGE.SESSION /\ session (req s) = None) \/
     (type st = Some STORAGE.COOKIE /\ cookies (req s) = None) ->
     issue1 g2 s =
     (Throw (Error
        (if decide (type st = Some STORAGE.SESSION)
         then "CSRF: Session middleware (e.g., express-session) is required when using session storage."
         else "CSRF: cookie-parser middleware is required when using cookie storage.")),
      s)) /\
  (forall (s : St) (m : gmap string jsval),
     scope_of g2 (req s) = Some m ->
     fst (setTokenLocalsParam g2 s) = Ok tt /\
     locals (res (snd (setTokenLocalsParam g2 s))) =
     <[value2 := js_or (js_or (js_get m param2) VNull)
                       (currentCsrfToken (req s))]> (locals (res s))) /\
  (forall (s : St) (cond token : jsval) (m : gmap string jsval),
     protectCondition2 (req s) = Ok cond ->
     truthy cond = true ->
     getTransmitToken2 (req s) = Ok token ->
     truthy token = true ->
     scope_of g2 (req s) = Some m ->
     js_get m param2 = token ->
     exists sc s1,
       protect g2 s = (Ok tt, s1) /\
       trace s1 = trace s ++ [EvRead sc param2;
                              EvInfo "DELETE CSRF TOKEN: " token;
                              EvClear sc param2;
                              EvNext None]) /\
  (forall (s : St) (cond token : jsval) (rs : Res) (evs : list event),
     protectCondition2 (req s) = Ok cond ->
     truthy cond = true ->
     getTransmitToken2 (req s) = Ok token ->
     truthy token = false ->
     errorResponse2 (req s) (res s) = Returns rs evs ->
     protect g2 s =
     (Ok tt, mkSt (req s) rs (entropy s) (cursor s) (trace s ++ evs))).
Proof.
  intros g1 issue1 g2 issue2 param2 value2 pc2 gtt2 er2.
  split; [repeat split|]. split; [|split; [|split; [|split; [|split]]]].
  - intros c s Hkind. by apply middleware_uses_storage_kind_only.
  - intros s Hkind. by apply middleware_uses_storage_kind_only.
  - intros s st Hst [[Hty Hnone] | [Hty Hnone]]; unfold issue1; simpl;
      run_body; rewrite Hst; simpl; rewrite Hty, Hnone; reflexivity.
  - intros s m Hm.
    destruct (setTokenLocalsParam_present g2 s m Hm) as [sc [_ Hset]].
    rewrite Hset. split; reflexivity.
  - intros s cond token m Hc Ht Htok Htr Hm Hval.
    destruct (getToken_present g2 s m Hm) as [sc [Hk Hg]].
    assert (Hcan : canonical g2 m = token)
      by (by apply (canonical_truthy g2 m token Hval Htr)).
    exists sc. eexists.
    split; [exact (protect_accept_state g2 s cond token m sc Hc Ht Htok Htr Hm Hcan Hk)|].
    reflexivity.
  - intros s cond token rs evs Hc Ht Htok Hf Herr.
    exact (protect_reject_absent g2 s cond token rs evs Hc Ht Htok Hf Herr).
Qed.

Lemma generate_overwrites_shared_configuration_witness :
  let c1 := config_of 2 STORAGE.SESSION "a" in
  let c2 := config_of 1 STORAGE.SESSION "b" in
  let g1 := fst (generate c1 csrf_initial) in
  let issue1 := snd (generate c1 csrf_initial) in
  let g2 := fst (generate c2 g1) in
  let issue2 := snd (generate c2 g1) in
  let param2 := default (param g1) (cfg_param c2) in
  let value2 := default (value g1) (cfg_value c2) in
  let protectCondition2 :=
    default (protectCondition g1) (cfg_protectCondition c2) in
  let getTransmitToken2 :=
    default (getTransmitToken g1) (cfg_getTransmitToken c2) in
  let errorResponse2 := default (errorResponse g1) (cfg_errorResponse c2) in
  (param g2 = param2 /\
   value g2 = value2 /\
   storage g2 = default (storage g1) (cfg_storage c2) /\
   tokenLength g2 = default (tokenLength g1) (cfg_tokenLength c2) /\
   protectCondition g2 = protectCondition2 /\
   getTransmitToken g2 = getTransmitToken2 /\
   errorResponse g2 = errorResponse2) /\
  (forall (c : CsrfConfig) (s : St),
     type <$> cfg_storage c = type <$> cfg_storage c1 ->
     snd (generate c csrf_initial) g2 s = issue1 g2 s) /\
  (forall s : St,
     type <$> cfg_storage c1 = type <$> cfg_storage c2 ->
     issue1 g2 s = issue2 g2 s) /\
  (forall (s : St) (st : Storage),
     cfg_storage c1 = Some st ->
     (type st = Some STORAGE.SESSION /\ session (req s) = None) \/
     (type st = Some STORAGE.COOKIE /\ cookies (req s) = None) ->
     issue1 g2 s =
     (Throw (Error
        (if decide (type st = Some STORAGE.SESSION)
         then "CSRF: Session middleware (e.g., express-session) is required when using session storage."
         else "CSRF: cookie-parser middleware is required when using cookie storage.")),
      s)) /\
  (forall (s : St) (m : gmap string jsval),
     scope_of g2 (req s) = Some m ->
     fst (setTokenLocalsParam g2 s) = Ok tt /\
     locals (res (snd (setTokenLocalsParam g2 s))) =
     <[value2 := js_or (js_or (js_get m param2) VNull)
                       (currentCsrfToken (req s))]> (locals (res s))) /\
  (forall (s : St) (cond token : jsval) (m : gmap string jsval),
     protectCondition2 (req s) = Ok cond ->
     truthy cond = true ->
     getTransmitToken2 (req s) = Ok token ->
     truthy token = true ->
     scope_of g2 (req s) = Some m ->
     js_get m param2 = token ->
     exists sc s1,
       protect g2 s = (Ok tt, s1) /\
       trace s1 = trace s ++ [EvRead sc param2;
                              EvInfo "DELETE CSRF TOKEN: " token;
                              EvClear sc param2;
                              EvNext None]) /\
  (forall (s : St) (cond token : jsval) (rs : Res) (evs : list event),
     protectCondition2 (req s) = Ok cond ->
     truthy cond = true ->
     getTransmitToken2 (req s) = Ok token ->
     truthy token = false ->
     errorResponse2 (req s) (res s) = Returns rs evs ->
     protect g2 s =
     (Ok tt, mkSt (req s) rs (entropy s) (cursor s) (trace s ++ evs))).
Proof.
  apply (generate_overwrites_shared_configuration csrf_initial
           (config_of 2 STORAGE.SESSION "a") (config_of 1 STORAGE.SESSION "b")).
Defined.

(** ** Further checks on the sample requests *)

(** A cookie-scoped first visit sets the cookie; the next visit, with the
    cookie among the request's cookies, sets nothing. *)
Example cookie_first_then_second_visit :
  let cfg := config_of 2 STORAGE.COOKIE "_csrf" in
  let csrf := spread csrf_initial cfg in
  cookie_ops (res (snd (middleware cfg csrf first_visit))) =
    [SetCookie "_csrf" "2aff" None] /\
  middleware cfg csrf second_visit =
    (Ok tt, logged second_visit [EvRead CookieScope "_csrf"; EvNext None]).
Proof. vm_compute. repeat split; reflexivity. Qed.

(** Without the session object the instance throws before its [try]: the
    promise is rejected and the continuation is not called. *)
Example session_missing_rejects_promise :
  let cfg := config_of 16 STORAGE.SESSION "_csrf" in
  middleware cfg (spread csrf_initial cfg) get_bare =
  (Throw (Error "CSRF: Session middleware (e.g., express-session) is required when using session storage."),
   get_bare).
Proof. reflexivity. Qed.

(** A 16-byte token is 32 hexadecimal characters long. *)
Example default_token_has_32_characters (s : St) :
  String.length (toString_hex (map (entropy s) (seq (cursor s) 16))) = 32.
Proof. by rewrite toString_hex_length, length_map, length_seq. Qed.

(** A configuration without [storage], as in [generate({ param: 'x' })]:
    the instance throws on [csrfConfig.storage.type] before its [try]. *)
Example config_without_storage_rejects_promise :
  let cfg := mkCsrfConfig None None (Some "x") None None None None in
  middleware cfg (spread csrf_initial cfg) first_visit =
  (Throw (undefined_property "type"), first_visit).
Proof. reflexivity. Qed.

(** * Further properties of the module *)

Lemma next_calls_app (a b : list event) :
  next_calls (a ++ b) = next_calls a ++ next_calls b.
Proof. apply omap_app. Qed.

(** X1. [protect] never throws: whatever the hooks and the storage do,
    every exception raised inside it is caught. *)
Theorem protect_never_throws (csrf : Csrf) (s : St) :
  fst (protect csrf s) = Ok tt.
Proof.
  run_body.
  repeat (case_match; simpl in *; simplify_eq; try reflexivity).
Qed.

(** X2. One outcome. With a rejection hook that does not call the
    continuation, every run of [protect] ends in exactly one of two ways:
    the rejection hook has run and left the response, with no call of the
    continuation; or the continuation has been called exactly once, as the
    last thing [protect] did. *)
Theorem protect_one_outcome (csrf : Csrf) (s : St) :
  terminal (errorResponse csrf) ->
  exists evs,
    trace (snd (protect csrf s)) = trace s ++ evs /\
    ((next_calls evs = [] /\
      exists rs hevs, errorResponse csrf (req s) (res s) = Returns rs hevs /\
                      res (snd (protect csrf s)) = rs)
     \/ exists e, next_calls evs = [e] /\ last evs = Some (EvNext e)).
Proof.
  intros Hterm. pose proof (Hterm (req s) (res s)) as Hq. run_body.
  repeat (case_match; simpl in *; simplify_eq).
  all: simpl in *.
  all: try match goal with
       | H : errorResponse _ _ _ = _ |- _ => rewrite H in Hq; simpl in Hq
       end.
  all: rewrite <- ?app_assoc.
  all: eexists; (split; [reflexivity|]).
  all: first
    [ left; split;
      [ rewrite ?next_calls_app, ?Hq; reflexivity | solve [eauto] ]
    | right; eexists; split;
      [ rewrite ?next_calls_app, ?Hq; reflexivity
      | first [ reflexivity | rewrite ?app_assoc; apply last_snoc ] ] ].
Qed.

Lemma protect_one_outcome_witness :
  exists evs,
    trace (snd (protect csrf_initial post_wrong)) = trace post_wrong ++ evs /\
    ((next_calls evs = [] /\
      exists rs hevs,
        errorResponse csrf_initial (req post_wrong) (res post_wrong) = Returns rs hevs /\
        res (snd (protect csrf_initial post_wrong)) = rs)
     \/ exists e, next_calls evs = [e] /\ last evs = Some (EvNext e)).
Proof.
  apply (protect_one_outcome csrf_initial post_wrong).
  intros r rs. reflexivity.
Defined.

(** X3. An exception thrown by [protectCondition], or by
    [getTransmitToken] on a protected request, is logged and passed to the
    continuation; the store is not read, nothing is cleared, the response
    is not touched and the rejection hook does not run. *)
Theorem protect_forwards_hook_exception (csrf : Csrf) (s : St) (e : jserror) :
  (protectCondition csrf (req s) = Throw e \/
   exists cond, protectCondition csrf (req s) = Ok cond /\
                truthy cond = true /\
                getTransmitToken csrf (req s) = Throw e) ->
  protect csrf s = (Ok tt, logged s [EvError e; EvNext (Some e)]).
Proof.
  intros [Hc | [cond [Hc [Ht Htok]]]]; run_body; rewrite Hc; simpl.
  - unfold logged. by rewrite <- app_assoc.
  - rewrite Ht, Htok. simpl. unfold logged. by rewrite <- app_assoc.
Qed.

Lemma protect_forwards_hook_exception_witness :
  protect csrf_initial post_unparsed =
  (Ok tt, logged post_unparsed
            [EvError (undefined_property "_csrf");
             EvNext (Some (undefined_property "_csrf"))]).
Proof.
  apply (protect_forwards_hook_exception csrf_initial post_unparsed).
  right. exists (VBool true). repeat split; reflexivity.
Defined.

(** X4. A protected request on which the designated store is undefined
    (no session object with 'session' storage, no cookies with 'cookie'
    storage): when the submitted token is falsy the store is never looked
    at and the rejection hook answers; when it is truthy the read throws
    and the TypeError goes to the continuation, the response staying
    untouched. *)
Theorem protect_without_store (csrf : Csrf) (s : St) (cond token : jsval)
    (sc : scope) (rs : Res) (evs : list event) :
  protectCondition csrf (req s) = Ok cond ->
  truthy cond = true ->
  getTransmitToken csrf (req s) = Ok token ->
  scope_kind csrf = Some sc ->
  scope_of csrf (req s) = None ->
  errorResponse csrf (req s) (res s) = Returns rs evs ->
  protect csrf s =
  if truthy token
  then (Ok tt, logged s [EvError (undefined_property (param csrf));
                         EvNext (Some (undefined_property (param csrf)))])
  else (Ok tt, mkSt (req s) rs (entropy s) (cursor s) (trace s ++ evs)).
Proof.
  intros Hc Ht Htok Hk Hnone Herr.
  destruct (truthy token) eqn:Etok.
  - revert Hk Hnone. unfold scope_kind, scope_of. run_body.
    rewrite Hc. simpl. rewrite Ht, Htok. simpl. rewrite Etok. simpl.
    repeat case_decide; try discriminate; intros _ ->; simpl;
      unfold logged; by rewrite <- app_assoc.
  - by apply (protect_reject_absent csrf s cond token rs evs).
Qed.

Lemma protect_without_store_witness :
  protect csrf_initial post_no_session =
  if truthy (VStr "2aff")
  then (Ok tt, logged post_no_session
                 [EvError (undefined_property "_csrf");
                  EvNext (Some (undefined_property "_csrf"))])
  else (Ok tt, mkSt (req post_no_session)
                    (mkRes 403 (Some "CSRF token invalid") [] ∅)
                    (entropy post_no_session) (cursor post_no_session)
                    (trace post_no_session ++ [])).
Proof.
  apply (protect_without_store csrf_initial post_no_session
           (VBool true) (VStr "2aff") SessionScope).
  - reflexivity.
  - reflexivity.
  - reflexivity.
  - reflexivity.
  - reflexivity.
  - reflexivity.
Defined.

(** X5. When the rejection hook throws, be it after it has written to the
    response, [protect] catches the exception, logs it and calls the
    continuation with it: a request that was to be rejected is handed to
    the error handling of the host, with the response as the hook left
    it. *)
Theorem protect_rejection_hook_exception (csrf : Csrf) (s : St)
    (cond token : jsval) (rs : Res) (evs : list event) (e : jserror) :
  protectCondition csrf (req s) = Ok cond ->
  truthy cond = true ->
  getTransmitToken csrf (req s) = Ok token ->
  (truthy token = false \/
   exists canon, fst (getToken csrf s) = Ok canon /\ token <> canon) ->
  errorResponse csrf (req s) (res s) = Throws rs evs e ->
  exists pre,
    protect csrf s =
    (Ok tt, mkSt (req s) rs (entropy s) (cursor s)
                 (trace s ++ pre ++ evs ++ [EvError e; EvNext (Some e)])) /\
    forallb quiet pre = true.
Proof.
  intros Hc Ht Htok Hinv Herr.
  unfold protect, try_catch, protect_guarded, call_hook, lift_result, get_req.
  unfold mbind, M_bind. simpl. rewrite Hc. simpl. rewrite Ht, Htok. simpl.
  destruct (truthy token) eqn:Etok; simpl.
  - destruct Hinv as [Hf | [canon [Hcanon Hne]]]; [discriminate|].
    destruct (getToken_frame csrf s) as [pre [Hs Hq]].
    destruct (getToken csrf s) as [v s'] eqn:E. simpl in Hcanon, Hs. subst v s'.
    unfold mret, M_ret. rewrite (strict_eq_neq _ _ Hne). simpl.
    unfold call_errorResponse. simpl. rewrite Herr.
    exists pre. split; [|exact Hq].
    unfold next, emit. simpl. by rewrite <- !app_assoc.
  - unfold mret, M_ret, call_errorResponse. rewrite Herr.
    exists []. split; [|reflexivity].
    unfold next, emit. simpl. by rewrite <- !app_assoc.
Qed.

Lemma protect_rejection_hook_exception_witness :
  let csrf := spread csrf_initial
    (mkCsrfConfig None None None None (Some throwing_errorResponse) None None) in
  exists pre,
    protect csrf post_missing =
    (Ok tt, mkSt (req post_missing) (mkRes 403 None [] ∅)
                 (entropy post_missing) (cursor post_missing)
                 (trace post_missing ++ pre ++ [] ++
                    [EvError (Error "render failed");
                     EvNext (Some (Error "render failed"))])) /\
    forallb quiet pre = true.
Proof.
  apply (protect_rejection_hook_exception
           (spread csrf_initial
              (mkCsrfConfig None None None None (Some throwing_errorResponse)
                            None None))
           post_missing (VBool true) VUndefined).
  - reflexivity.
  - reflexivity.
  - reflexivity.
  - left. reflexivity.
  - reflexivity.
Defined.

(** X6. What [protect] leaves alone. Whatever the hooks do, [protect]
    never draws from the random source, never changes method, cookies,
    body, headers or [currentCsrfToken] of the request, and changes the
    session in one way only: by deleting the entry under [param]. *)
Theorem protect_frame (csrf : Csrf) (s : St) :
  let s' := snd (protect csrf s) in
  entropy s' = entropy s /\ cursor s' = cursor s /\
  method (req s') = method (req s) /\
  cookies (req s') = cookies (req s) /\
  body (req s') = body (req s) /\
  headers (req s') = headers (req s) /\
  currentCsrfToken (req s') = currentCsrfToken (req s) /\
  (session (req s') = session (req s) \/
   session (req s') = delete (param csrf) <$> session (req s)).
Proof.
  run_body.
  repeat (case_match; simpl in *; simplify_eq).
  all: simpl in *; simplify_eq; repeat split; try done.
  all: first [ by left | by right ].
Qed.

(** X7. Storage prerequisites. When the configuration the instance was
    built with names 'session' storage and the request has no session
    object, or names 'cookie' storage and the request has no cookies, the
    middleware throws the matching error before its [try]: the promise is
    rejected, the continuation is not called, nothing is read or written. *)
Theorem middleware_requires_store (csrfConfig : CsrfConfig) (csrf : Csrf)
    (s : St) (st : Storage) :
  cfg_storage csrfConfig = Some st ->
  (type st = Some STORAGE.SESSION /\ session (req s) = None) \/
  (type st = Some STORAGE.COOKIE /\ cookies (req s) = None) ->
  middleware csrfConfig csrf s =
  (Throw (Error
     (if decide (type st = Some STORAGE.SESSION)
      then "CSRF: Session middleware (e.g., express-session) is required when using session storage."
      else "CSRF: cookie-parser middleware is required when using cookie storage.")),
   s).
Proof.
  intros Hst [[Hty Hnone] | [Hty Hnone]]; run_body; rewrite Hst; simpl;
    rewrite Hty, Hnone; reflexivity.
Qed.

Lemma middleware_requires_store_witness :
  let cfg := config_of 16 STORAGE.COOKIE "_csrf" in
  middleware cfg (spread csrf_initial cfg) get_bare =
  (Throw (Error
     (if decide (Some STORAGE.COOKIE = Some STORAGE.SESSION)
      then "CSRF: Session middleware (e.g., express-session) is required when using session storage."
      else "CSRF: cookie-parser middleware is required when using cookie storage.")),
   get_bare).
Proof.
  apply (middleware_requires_store (config_of 16 STORAGE.COOKIE "_csrf")
           (spread csrf_initial (config_of 16 STORAGE.COOKIE "_csrf"))
           get_bare (mkStorage (Some STORAGE.COOKIE) None)).
  - reflexivity.
  - right. split; reflexivity.
Defined.

(** X8. The prerequisite check looks at the configuration the instance
    was built with, the storage access at the module variable. An instance
    built for 'cookie' storage that runs while the module variable says
    'session', on a request with cookies but without session object,
    passes its check; the read of the missing session then throws inside
    the [try], and the TypeError is handed to the continuation. *)
Theorem middleware_checks_its_own_storage (csrfConfig : CsrfConfig)
    (csrf : Csrf) (s : St) (st : Storage) (jar : gmap string jsval) :
  cfg_storage csrfConfig = Some st ->
  type st = Some STORAGE.COOKIE ->
  cookies (req s) = Some jar ->
  type (storage csrf) = Some STORAGE.SESSION ->
  session (req s) = None ->
  middleware csrfConfig csrf s =
  (Ok tt, logged s [EvError (undefined_property (param csrf));
                    EvNext (Some (undefined_property (param csrf)))]).
Proof.
  intros Hst Hty Hjar Hcur Hnone. run_body. rewrite Hst. simpl.
  rewrite Hty, Hjar, Hnone. simpl.
  destruct (decide (type (storage csrf) = Some STORAGE.SESSION)) as [_|Hne];
    [|contradiction].
  rewrite Hnone. simpl. unfold logged. by rewrite <- app_assoc.
Qed.

Lemma middleware_checks_its_own_storage_witness :
  let c1 := config_of 16 STORAGE.COOKIE "_csrf" in
  let c2 := config_of 16 STORAGE.SESSION "_csrf" in
  let csrf := spread (spread csrf_initial c1) c2 in
  middleware c1 csrf visit_without_session =
  (Ok tt, logged visit_without_session
            [EvError (undefined_property (param csrf));
             EvNext (Some (undefined_property (param csrf)))]).
Proof.
  apply (middleware_checks_its_own_storage (config_of 16 STORAGE.COOKIE "_csrf")
           (spread (spread csrf_initial (config_of 16 STORAGE.COOKIE "_csrf"))
                   (config_of 16 STORAGE.SESSION "_csrf"))
           visit_without_session (mkStorage (Some STORAGE.COOKIE) None) ∅).
  - reflexivity.
  - reflexivity.
  - reflexivity.
  - reflexivity.
  - reflexivity.
Defined.

(** X9. One outcome of the middleware. Either the promise is rejected, and
    then nothing at all has happened (state and trace are as before, the
    continuation has not been called); or it resolves, and then the
    continuation has been called exactly once, as the last step, with or
    without an error. *)
Theorem middleware_one_outcome (csrfConfig : CsrfConfig) (csrf : Csrf) (s : St) :
  match middleware csrfConfig csrf s with
  | (Throw _, s') => s' = s
  | (Ok _, s') =>
      exists evs e, trace s' = trace s ++ evs /\
                    next_calls evs = [e] /\ last evs = Some (EvNext e)
  end.
Proof.
  run_body.
  repeat (case_match; simpl in *; simplify_eq).
  all: simpl; rewrite <- ?app_assoc; simpl.
  all: try reflexivity.
  all: eexists; eexists; (split; [reflexivity|]); split; reflexivity.
Qed.

(** X10. What the middleware leaves alone. On every run it leaves method,
    cookies, body and headers of the request and status, body and [locals]
    of the response as they were, and never clears a token. The session
    changes at most by an entry under [param], the response at most by one
    cookie set under [param] with the configured options. *)
Theorem middleware_frame (csrfConfig : CsrfConfig) (csrf : Csrf) (s : St) :
  let s' := snd (middleware csrfConfig csrf s) in
  method (req s') = method (req s) /\
  cookies (req s') = cookies (req s) /\
  body (req s') = body (req s) /\
  headers (req s') = headers (req s) /\
  statusCode (res s') = statusCode (res s) /\
  sent (res s') = sent (res s) /\
  locals (res s') = locals (res s) /\
  (exists evs, trace s' = trace s ++ evs /\
               forallb (fun ev => negb (is_clear ev)) evs = true) /\
  (session (req s') = session (req s) \/
   exists token, session (req s') =
                 <[param csrf := VStr token]> <$> session (req s)) /\
  (cookie_ops (res s') = cookie_ops (res s) \/
   exists token, cookie_ops (res s') =
                 cookie_ops (res s) ++
                 [SetCookie (param csrf) token (options (storage csrf))]).
Proof.
  run_body.
  repeat (case_match; simpl in *; simplify_eq).
  all: simpl in *; simplify_eq; rewrite <- ?app_assoc; simpl.
  all: repeat (split; [done|]).
  all: split; [first [ by exists [] ; rewrite app_nil_r
                     | eexists; split; reflexivity ] |].
  all: split; first [ by left | right; eexists; reflexivity ].
Qed.

(** X11. With a storage type that is neither 'session' nor 'cookie' the
    middleware mints a token on every request and stores it nowhere:
    session, cookies and response are untouched, the trace shows two
    warnings and no write, and the token lives only in
    [req.currentCsrfToken]. This for every token length whose hex encoding
    fits a string. *)
Theorem middleware_unknown_storage (csrfConfig : CsrfConfig) (csrf : Csrf)
    (s : St) :
  cfg_storage csrfConfig = Some (storage csrf) ->
  scope_kind csrf = None ->
  (0 <= 2 * tokenLength csrf <= kStringMaxLength)%Z ->
  let token := toString_hex
    (map (entropy s) (seq (cursor s) (Z.to_nat (tokenLength csrf)))) in
  let unknown := of_option_string (type (storage csrf)) in
  middleware csrfConfig csrf s =
  (Ok tt,
   mkSt (mkReq (method (req s)) (session (req s)) (cookies (req s))
               (body (req s)) (headers (req s)) (VStr token))
        (res s) (entropy s) (cursor s + Z.to_nat (tokenLength csrf))
        (trace s ++ [EvWarn "CSRF: Unknown storage type:" unknown;
                     EvInfo "CREATE CSRF TOKEN:" (VStr token);
                     EvWarn "CSRF: Unknown storage type:" unknown;
                     EvNext None])).
Proof.
  intros Hsame Hk Hrange token unknown. revert Hk. unfold scope_kind.
  destruct (decide (type (storage csrf) = Some STORAGE.SESSION)) as [Hs|Hs];
    [discriminate|].
  destruct (decide (type (storage csrf) = Some STORAGE.COOKIE)) as [Hc|Hc];
    [discriminate|]. intros _.
  unfold middleware, storage_missing, try_catch, getToken, get_req, set_req,
    next, emit. unfold mbind, M_bind, mret, M_ret. simpl. rewrite Hsame. simpl.
  rewrite (bool_decide_eq_false_2 _ Hs). simpl.
  rewrite (bool_decide_eq_false_2 _ Hc). simpl.
  destruct (decide (type (storage csrf) = Some STORAGE.SESSION)); [contradiction|].
  destruct (decide (type (storage csrf) = Some STORAGE.COOKIE)); [contradiction|].
  simpl. rewrite randomBytes_in_range by (apply fits_in_range; exact Hrange).
  simpl. rewrite Buffer_toString_fits by (rewrite random_length; lia). simpl.
  destruct (decide (type (storage csrf) = Some STORAGE.SESSION)); [contradiction|].
  destruct (decide (type (storage csrf) = Some STORAGE.COOKIE)); [contradiction|].
  simpl. rewrite <- !app_assoc. reflexivity.
Qed.

Lemma middleware_unknown_storage_witness :
  let cfg := config_of 2 "redis" "_csrf" in
  let csrf := spread csrf_initial cfg in
  let token := toString_hex
    (map (entropy first_visit)
         (seq (cursor first_visit) (Z.to_nat (tokenLength csrf)))) in
  let unknown := of_option_string (type (storage csrf)) in
  middleware cfg csrf first_visit =
  (Ok tt,
   mkSt (mkReq (method (req first_visit)) (session (req first_visit))
               (cookies (req first_visit)) (body (req first_visit))
               (headers (req first_visit)) (VStr token))
        (res first_visit) (entropy first_visit)
        (cursor first_visit + Z.to_nat (tokenLength csrf))
        (trace first_visit ++
           [EvWarn "CSRF: Unknown storage type:" unknown;
            EvInfo "CREATE CSRF TOKEN:" (VStr token);
            EvWarn "CSRF: Unknown storage type:" unknown;
            EvNext None])).
Proof.
  apply (middleware_unknown_storage (config_of 2 "redis" "_csrf")
           (spread csrf_initial (config_of 2 "redis" "_csrf")) first_visit).
  - reflexivity.
  - reflexivity.
  - unfold kStringMaxLength. simpl. lia.
Defined.

(** X12. A token left by the middleware validates. After a run of the
    middleware on a present store (storage 'session' or 'cookie', token
    length at least 1 with an encoding that fits a string), a protected
    request that presents the token it left in the designated store and
    submits it is accepted: [protect] reads, clears and calls the
    continuation. *)
Theorem issued_token_validates (csrfConfig : CsrfConfig) (csrf : Csrf)
    (s1 : St) (m : gmap string jsval) :
  cfg_storage csrfConfig = Some (storage csrf) ->
  scope_of csrf (req s1) = Some m ->
  (0 < 2 * tokenLength csrf <= kStringMaxLength)%Z ->
  exists s1' tok,
    middleware csrfConfig csrf s1 = (Ok tt, s1') /\
    truthy tok = true /\
    token_left csrf s1 s1' tok /\
    forall (s2 : St) (m2 : gmap string jsval) (cond : jsval),
      scope_of csrf (req s2) = Some m2 ->
      js_get m2 (param csrf) = tok ->
      protectCondition csrf (req s2) = Ok cond ->
      truthy cond = true ->
      getTransmitToken csrf (req s2) = Ok tok ->
      exists sc s2',
        protect csrf s2 = (Ok tt, s2') /\
        trace s2' = trace s2 ++ [EvRead sc (param csrf);
                                 EvInfo "DELETE CSRF TOKEN: " tok;
                                 EvClear sc (param csrf);
                                 EvNext None].
Proof.
  intros Hsame Hm Hlen.
  destruct (middleware_leaves_token csrfConfig csrf s1 m Hsame Hm Hlen)
    as [sc [s1' [tok [Hk [Hrun [Htr [Hleft _]]]]]]].
  exists s1', tok. split; [exact Hrun|]. split; [exact Htr|].
  split; [exact Hleft|].
  intros s2 m2 cond Hm2 Hval Hc Ht Htok.
  destruct (getToken_present csrf s2 m2 Hm2) as [sc' [Hk' Hg]].
  assert (Hget : fst (getToken csrf s2) = Ok tok).
  { rewrite Hg. simpl. by rewrite (canonical_truthy csrf m2 tok Hval Htr). }
  destruct (protect_accept csrf s2 cond tok Hc Ht Htok Htr Hget)
    as [sc'' [s2' [_ [Hrun2 Htrace]]]].
  by exists sc'', s2'.
Qed.

Lemma issued_token_validates_witness :
  let cfg := config_of 2 STORAGE.SESSION "_csrf" in
  let csrf := spread csrf_initial cfg in
  exists s1' tok,
    middleware cfg csrf first_visit = (Ok tt, s1') /\
    truthy tok = true /\
    token_left csrf first_visit s1' tok /\
    forall (s2 : St) (m2 : gmap string jsval) (cond : jsval),
      scope_of csrf (req s2) = Some m2 ->
      js_get m2 (param csrf) = tok ->
      protectCondition csrf (req s2) = Ok cond ->
      truthy cond = true ->
      getTransmitToken csrf (req s2) = Ok tok ->
      exists sc s2',
        protect csrf s2 = (Ok tt, s2') /\
        trace s2' = trace s2 ++ [EvRead sc (param csrf);
                                 EvInfo "DELETE CSRF TOKEN: " tok;
                                 EvClear sc (param csrf);
                                 EvNext None].
Proof.
  apply (issued_token_validates (config_of 2 STORAGE.SESSION "_csrf")
           (spread csrf_initial (config_of 2 STORAGE.SESSION "_csrf"))
           first_visit ∅).
  - reflexivity.
  - reflexivity.
  - unfold kStringMaxLength. simpl. lia.
Defined.

(** X13. A consumed token is replaced. With 'session' storage, after
    [protect] has accepted a request, the middleware run on any request
    that carries the same session finds no token, mints a fresh one from
    the next bytes of the random source and writes it into the session
    under [param]. This for every token length whose hex encoding fits a
    string. *)
Theorem consumed_token_is_reissued (csrfConfig : CsrfConfig) (csrf : Csrf)
    (s : St) (cond token : jsval) :
  cfg_storage csrfConfig = Some (storage csrf) ->
  scope_kind csrf = Some SessionScope ->
  (0 <= 2 * tokenLength csrf <= kStringMaxLength)%Z ->
  protectCondition csrf (req s) = Ok cond ->
  truthy cond = true ->
  getTransmitToken csrf (req s) = Ok token ->
  truthy token = true ->
  fst (getToken csrf s) = Ok token ->
  exists s1,
    protect csrf s = (Ok tt, s1) /\
    forall s2 : St,
      session (req s2) = session (req s1) ->
      let fresh := toString_hex
        (map (entropy s2) (seq (cursor s2) (Z.to_nat (tokenLength csrf)))) in
      exists s2' m2,
        middleware csrfConfig csrf s2 = (Ok tt, s2') /\
        trace s2' = trace s2 ++ [EvRead SessionScope (param csrf);
                                 EvInfo "CREATE CSRF TOKEN:" (VStr fresh);
                                 EvWrite SessionScope (param csrf) fresh;
                                 EvNext None] /\
        session (req s2') = Some m2 /\
        m2 !! param csrf = Some (VStr fresh).
Proof.
  intros Hsame Hk Hrange Hc Ht Htok Htr Hget.
  destruct (getToken_truthy csrf s token Hget Htr) as [m [Hm Hcan]].
  pose proof (protect_accept_state csrf s cond token m SessionScope
                Hc Ht Htok Htr Hm Hcan Hk) as Hrun.
  eexists. split; [exact Hrun|]. simpl.
  intros s2 Hsess.
  assert (Hm2 : scope_of csrf (req s2) = Some (delete (param csrf) m))
    by (by rewrite (scope_of_session csrf _ Hk), Hsess).
  assert (Hf : truthy (canonical csrf (delete (param csrf) m)) = false)
    by (by rewrite (canonical_absent csrf _ (lookup_delete_eq m (param csrf)))).
  pose proof (middleware_mint csrfConfig csrf Hsame s2 _ SessionScope
                Hk Hm2 Hf Hrange) as Hrun2.
  simpl in Hrun2.
  eexists _, _. split; [exact Hrun2|]. simpl.
  split; [reflexivity|]. split; [reflexivity|]. apply lookup_insert_eq.
Qed.

Lemma consumed_token_is_reissued_witness :
  let cfg := config_of 2 STORAGE.SESSION "_csrf" in
  let csrf := spread csrf_initial cfg in
  exists s1,
    protect csrf post_valid = (Ok tt, s1) /\
    forall s2 : St,
      session (req s2) = session (req s1) ->
      let fresh := toString_hex
        (map (entropy s2) (seq (cursor s2) (Z.to_nat (tokenLength csrf)))) in
      exists s2' m2,
        middleware cfg csrf s2 = (Ok tt, s2') /\
        trace s2' = trace s2 ++ [EvRead SessionScope (param csrf);
                                 EvInfo "CREATE CSRF TOKEN:" (VStr fresh);
                                 EvWrite SessionScope (param csrf) fresh;
                                 EvNext None] /\
        session (req s2') = Some m2 /\
        m2 !! param csrf = Some (VStr fresh).
Proof.
  apply (consumed_token_is_reissued (config_of 2 STORAGE.SESSION "_csrf")
           (spread csrf_initial (config_of 2 STORAGE.SESSION "_csrf"))
           post_valid (VBool true) (VStr "2aff")).
  - reflexivity.
  - reflexivity.
  - unfold kStringMaxLength. simpl. lia.
  - reflexivity.
  - reflexivity.
  - reflexivity.
  - reflexivity.
  - reflexivity.
Defined.

(** X14. Round trip from issue to expose. When [setTokenLocalsParam] runs
    after the middleware on the same request (token length at least 1 with
    an encoding that fits a string), the value it puts into [res.locals]
    under [value] is the token the middleware left: the one already there,
    or the one just minted, also with 'cookie' storage, where the minted
    token is not yet among the request's cookies and is taken from
    [req.currentCsrfToken]. All other entries of [res.locals], the status
    and the body are left as they were. *)
Theorem expose_after_issue (csrfConfig : CsrfConfig) (csrf : Csrf) (s : St)
    (m : gmap string jsval) :
  cfg_storage csrfConfig = Some (storage csrf) ->
  scope_of csrf (req s) = Some m ->
  (0 < 2 * tokenLength csrf <= kStringMaxLength)%Z ->
  exists s1 s2 tok,
    middleware csrfConfig csrf s = (Ok tt, s1) /\
    setTokenLocalsParam csrf s1 = (Ok tt, s2) /\
    truthy tok = true /\
    token_left csrf s s1 tok /\
    locals (res s2) = <[value csrf := tok]> (locals (res s)) /\
    statusCode (res s2) = statusCode (res s) /\
    sent (res s2) = sent (res s).
Proof.
  intros Hsame Hm Hlen.
  destruct (middleware_leaves_token csrfConfig csrf s m Hsame Hm Hlen)
    as [sc [s1 [tok [Hk [Hrun [Htr [Hleft [[m' [Hm1 Hexp]] [Hst [Hse Hlo]]]]]]]]]].
  destruct (setTokenLocalsParam_present csrf s1 m' Hm1) as [sc' [_ Hset]].
  eexists s1, _, tok. split; [exact Hrun|]. split; [exact Hset|].
  split; [exact Htr|]. split; [exact Hleft|]. simpl.
  by rewrite Hexp, Hlo, Hst, Hse.
Qed.

Lemma expose_after_issue_witness :
  let cfg := config_of 2 STORAGE.COOKIE "_csrf" in
  let csrf := spread csrf_initial cfg in
  exists s1 s2 tok,
    middleware cfg csrf first_visit = (Ok tt, s1) /\
    setTokenLocalsParam csrf s1 = (Ok tt, s2) /\
    truthy tok = true /\
    token_left csrf first_visit s1 tok /\
    locals (res s2) = <[value csrf := tok]> (locals (res first_visit)) /\
    statusCode (res s2) = statusCode (res first_visit) /\
    sent (res s2) = sent (res first_visit).
Proof.
  apply (expose_after_issue (config_of 2 STORAGE.COOKIE "_csrf")
           (spread csrf_initial (config_of 2 STORAGE.COOKIE "_csrf"))
           first_visit ∅).
  - reflexivity.
  - reflexivity.
  - unfold kStringMaxLength. simpl. lia.
Defined.

(** X29. A token too long for a string. With a token length that the
    random source accepts but whose hex encoding is longer than the longest
    string (from 268435445 bytes on), on a present store without a truthy
    token, the bytes are drawn and [toString('hex')] throws: the middleware
    logs ERR_STRING_TOO_LONG and passes it to the continuation. No token is
    minted, none is written, and [req.currentCsrfToken] is not set. *)
Theorem middleware_token_too_long (csrfConfig : CsrfConfig) (csrf : Csrf)
    (s : St) (m : gmap string jsval) (sc : scope) :
  cfg_storage csrfConfig = Some (storage csrf) ->
  scope_kind csrf = Some sc ->
  scope_of csrf (req s) = Some m ->
  truthy (canonical csrf m) = false ->
  (kStringMaxLength < 2 * tokenLength csrf)%Z ->
  (tokenLength csrf <= kMaxLength)%Z ->
  middleware csrfConfig csrf s =
  (Ok tt,
   mkSt (req s) (res s) (entropy s) (cursor s + Z.to_nat (tokenLength csrf))
        (trace s ++ [EvRead sc (param csrf);
                     EvError (Error "ERR_STRING_TOO_LONG");
                     EvNext (Some (Error "ERR_STRING_TOO_LONG"))])).
Proof.
  intros Hsame Hk Hm Hf Hlong Hmax.
  destruct (middleware_too_long csrfConfig csrf Hsame s m Hm Hf Hlong Hmax)
    as [sc' [Hk' Hrun]].
  rewrite Hk in Hk'. injection Hk' as <-. exact Hrun.
Qed.

Lemma middleware_token_too_long_witness :
  let cfg := config_of 268435445 STORAGE.SESSION "_csrf" in
  let csrf := spread csrf_initial cfg in
  middleware cfg csrf first_visit =
  (Ok tt,
   mkSt (req first_visit) (res first_visit) (entropy first_visit)
        (cursor first_visit + Z.to_nat (tokenLength csrf))
        (trace first_visit ++ [EvRead SessionScope (param csrf);
                               EvError (Error "ERR_STRING_TOO_LONG");
                               EvNext (Some (Error "ERR_STRING_TOO_LONG"))])).
Proof.
  apply (middleware_token_too_long
           (config_of 268435445 STORAGE.SESSION "_csrf")
           (spread csrf_initial (config_of 268435445 STORAGE.SESSION "_csrf"))
           first_visit ∅ SessionScope).
  - reflexivity.
  - reflexivity.
  - reflexivity.
  - reflexivity.
  - unfold kStringMaxLength. simpl. lia.
  - unfold kMaxLength. simpl. lia.
Defined.


(** X16. Expose after a successful validation in the same request. With
    'session' storage the entry is gone from the session, so
    [setTokenLocalsParam] falls back on [req.currentCsrfToken] (undefined
    unless the middleware minted earlier in this request). With 'cookie'
    storage the request's cookies still hold the token just consumed, and
    that consumed token is what gets exposed. *)
Theorem expose_after_validate (csrf : Csrf) (s : St) (cond token : jsval)
    (m : gmap string jsval) (sc : scope) :
  protectCondition csrf (req s) = Ok cond ->
  truthy cond = true ->
  getTransmitToken csrf (req s) = Ok token ->
  truthy token = true ->
  scope_of csrf (req s) = Some m ->
  canonical csrf m = token ->
  scope_kind csrf = Some sc ->
  exists s1 s2,
    protect csrf s = (Ok tt, s1) /\
    setTokenLocalsParam csrf s1 = (Ok tt, s2) /\
    locals (res s2) =
    <[value csrf := match sc with
                    | SessionScope => currentCsrfToken (req s)
                    | CookieScope => token
                    end]> (locals (res s)).
Proof.
  intros Hc Ht Htok Htr Hm Hcan Hk.
  pose proof (protect_accept_state csrf s cond token m sc Hc Ht Htok Htr Hm Hcan Hk)
    as Hrun.
  revert Hm Hk Hrun. unfold scope_of, scope_kind.
  destruct (decide (type (storage csrf) = Some STORAGE.SESSION)) as [Hs|Hs];
    [|destruct (decide (type (storage csrf) = Some STORAGE.COOKIE)) as [Hc'|Hc']];
    intros Hm Hk Hrun; [| |discriminate]; injection Hk as <-.
  - match type of Hrun with protect _ _ = (_, ?s1) =>
      destruct (setTokenLocalsParam_present csrf s1 (delete (param csrf) m))
        as [sc [_ Hset]]
    end.
    { unfold scope_of. rewrite decide_True by exact Hs. reflexivity. }
    eexists _, _. split; [exact Hrun|]. split; [exact Hset|]. simpl.
    rewrite (canonical_absent csrf _ (lookup_delete_eq m (param csrf))).
    reflexivity.
  - match type of Hrun with protect _ _ = (_, ?s1) =>
      destruct (setTokenLocalsParam_present csrf s1 m) as [sc [_ Hset]]
    end.
    { unfold scope_of. rewrite decide_False by exact Hs.
      rewrite decide_True by exact Hc'. exact Hm. }
    eexists _, _. split; [exact Hrun|]. split; [exact Hset|]. simpl.
    rewrite Hcan. unfold js_or. by rewrite Htr.
Qed.

Lemma expose_after_validate_witness :
  exists s1 s2,
    protect csrf_initial post_valid = (Ok tt, s1) /\
    setTokenLocalsParam csrf_initial s1 = (Ok tt, s2) /\
    locals (res s2) =
    <[value csrf_initial := currentCsrfToken (req post_valid)]>
      (locals (res post_valid)).
Proof.
  apply (expose_after_validate csrf_initial post_valid (VBool true)
           (VStr "2aff") {["_csrf" := VStr "2aff"]} SessionScope).
  - reflexivity.
  - reflexivity.
  - reflexivity.
  - reflexivity.
  - reflexivity.
  - reflexivity.
  - reflexivity.
Defined.

(** X17. The state after minting. On a present store without a truthy
    token and with a token length whose hex encoding fits a string (at most
    268435444 bytes), the middleware draws exactly
    [tokenLength] bytes, remembers their hex encoding in
    [req.currentCsrfToken], and stores it: with 'session' storage in the
    session under [param], the response untouched; with 'cookie' storage
    by one [res.cookie(param, token, options)] with the configured options,
    the request's cookies untouched. *)
Theorem middleware_mint_state (csrfConfig : CsrfConfig) (csrf : Csrf) (s : St)
    (m : gmap string jsval) (sc : scope) :
  cfg_storage csrfConfig = Some (storage csrf) ->
  scope_kind csrf = Some sc ->
  scope_of csrf (req s) = Some m ->
  truthy (canonical csrf m) = false ->
  (0 <= 2 * tokenLength csrf <= kStringMaxLength)%Z ->
  let token := toString_hex
    (map (entropy s) (seq (cursor s) (Z.to_nat (tokenLength csrf)))) in
  middleware csrfConfig csrf s =
  (Ok tt,
   mkSt (mkReq (method (req s))
               (match sc with
                | SessionScope => Some (<[param csrf := VStr token]> m)
                | CookieScope => session (req s)
                end)
               (cookies (req s)) (body (req s)) (headers (req s)) (VStr token))
        (match sc with
         | SessionScope => res s
         | CookieScope =>
             mkRes (statusCode (res s)) (sent (res s))
                   (cookie_ops (res s) ++
                    [SetCookie (param csrf) token (options (storage csrf))])
                   (locals (res s))
         end)
        (entropy s) (cursor s + Z.to_nat (tokenLength csrf))
        (trace s ++ [EvRead sc (param csrf);
                     EvInfo "CREATE CSRF TOKEN:" (VStr token);
                     EvWrite sc (param csrf) token;
                     EvNext None])).
Proof.
  intros Hsame Hk Hm Hf Hrange.
  exact (middleware_mint csrfConfig csrf Hsame s m sc Hk Hm Hf Hrange).
Qed.

Lemma middleware_mint_state_witness :
  let cfg := mkCsrfConfig (Some 2%Z)
    (Some (mkStorage (Some STORAGE.COOKIE) (Some {["httpOnly" := VBool true]})))
    None None None None None in
  let csrf := spread csrf_initial cfg in
  middleware cfg csrf first_visit =
  (Ok tt,
   mkSt (mkReq "GET" (Some ∅) (Some ∅) (Some ∅) (Some ∅) (VStr "2aff"))
        (mkRes 200 None
               ([] ++ [SetCookie "_csrf" "2aff" (Some {["httpOnly" := VBool true]})])
               ∅)
        sample_entropy (0 + Z.to_nat 2)
        ([] ++ [EvRead CookieScope "_csrf";
                EvInfo "CREATE CSRF TOKEN:" (VStr "2aff");
                EvWrite CookieScope "_csrf" "2aff";
                EvNext None])).
Proof.
  apply (middleware_mint_state
           (mkCsrfConfig (Some 2%Z)
              (Some (mkStorage (Some STORAGE.COOKIE)
                               (Some {["httpOnly" := VBool true]})))
              None None None None None)
           (spread csrf_initial
              (mkCsrfConfig (Some 2%Z)
                 (Some (mkStorage (Some STORAGE.COOKIE)
                                  (Some {["httpOnly" := VBool true]})))
                 None None None None None))
           first_visit ∅ CookieScope).
  - reflexivity.
  - reflexivity.
  - reflexivity.
  - reflexivity.
  - unfold kStringMaxLength. simpl. lia.
Defined.

(** X18. The policy as initialised. With [protectCondition] left at its
    initial value, a request whose method is exactly POST, PUT or DELETE is
    protected, and a request with any other method (PATCH, or 'post' in
    lower case) goes straight to the continuation, unchecked. *)
Theorem default_policy_methods (csrf : Csrf) (s : St) :
  protectCondition csrf = default_protectCondition ->
  (method (req s) = "POST" \/ method (req s) = "PUT" \/ method (req s) = "DELETE" ->
   protectCondition csrf (req s) = Ok (VBool true)) /\
  (method (req s) <> "POST" -> method (req s) <> "PUT" ->
   method (req s) <> "DELETE" ->
   protect csrf s = (Ok tt, logged s [EvNext None])).
Proof.
  intros Hdef. split.
  - rewrite Hdef. unfold default_protectCondition.
    intros [-> | [-> | ->]]; reflexivity.
  - intros H1 H2 H3. apply (protect_skip csrf s (VBool false)); [|reflexivity].
    rewrite Hdef. unfold default_protectCondition.
    by rewrite !bool_decide_eq_false_2.
Qed.

Lemma default_policy_methods_witness :
  (method (req patch_plain) = "POST" \/ method (req patch_plain) = "PUT" \/
   method (req patch_plain) = "DELETE" ->
   protectCondition csrf_initial (req patch_plain) = Ok (VBool true)) /\
  (method (req patch_plain) <> "POST" -> method (req patch_plain) <> "PUT" ->
   method (req patch_plain) <> "DELETE" ->
   protect csrf_initial patch_plain = (Ok tt, logged patch_plain [EvNext None])).
Proof.
  apply (default_policy_methods csrf_initial patch_plain). reflexivity.
Defined.

(** X19. The body shadows the header. With the extraction hook as
    initialised, a protected request whose body field [_csrf] is truthy but
    differs from the canonical token is rejected whatever its headers
    carry, the right token included: the header is a fallback for a
    missing body field only, not a second chance. *)
Theorem body_token_shadows_header (csrf : Csrf) (s : St) (cond canon : jsval)
    (b : gmap string jsval) (rs : Res) (evs : list event) :
  getTransmitToken csrf = default_getTransmitToken ->
  protectCondition csrf (req s) = Ok cond ->
  truthy cond = true ->
  body (req s) = Some b ->
  truthy (js_get b "_csrf") = true ->
  fst (getToken csrf s) = Ok canon ->
  js_get b "_csrf" <> canon ->
  errorResponse csrf (req s) (res s) = Returns rs evs ->
  exists pre,
    protect csrf s =
    (Ok tt, mkSt (req s) rs (entropy s) (cursor s) (trace s ++ pre ++ evs)) /\
    forallb quiet pre = true.
Proof.
  intros Hdef Hc Ht Hb Htr Hget Hne Herr.
  assert (Htok : getTransmitToken csrf (req s) = Ok (js_get b "_csrf")).
  { rewrite Hdef. unfold default_getTransmitToken. by rewrite Hb, Htr. }
  destruct (protect_reject csrf s cond (js_get b "_csrf") rs evs Hc Ht Htok)
    as [pre [Hq Hrun]].
  - right. exists canon. split; [exact Hget | by apply strict_eq_neq].
  - exact Herr.
  - by exists pre.
Qed.

Lemma body_token_shadows_header_witness :
  exists pre,
    protect csrf_initial post_body_wrong_header_right =
    (Ok tt, mkSt (req post_body_wrong_header_right)
                 (mkRes 403 (Some "CSRF token invalid") [] ∅)
                 (entropy post_body_wrong_header_right)
                 (cursor post_body_wrong_header_right)
                 (trace post_body_wrong_header_right ++ pre ++ [])) /\
    forallb quiet pre = true.
Proof.
  apply (body_token_shadows_header csrf_initial post_body_wrong_header_right
           (VBool true) (VStr "2aff") {["_csrf" := VStr "0000"]}).
  - reflexivity.
  - reflexivity.
  - reflexivity.
  - reflexivity.
  - reflexivity.
  - reflexivity.
  - discriminate.
  - reflexivity.
Defined.

(** X20. The header is enough. With the extraction hook as initialised, a
    protected request whose parsed body has no truthy [_csrf] field and
    whose header [csrf-token] equals the token the store holds is
    accepted. *)
Theorem header_token_validates (csrf : Csrf) (s : St) (cond : jsval)
    (b h m : gmap string jsval) :
  getTransmitToken csrf = default_getTransmitToken ->
  protectCondition csrf (req s) = Ok cond ->
  truthy cond = true ->
  body (req s) = Some b ->
  truthy (js_get b "_csrf") = false ->
  headers (req s) = Some h ->
  scope_of csrf (req s) = Some m ->
  truthy (canonical csrf m) = true ->
  js_get h "csrf-token" = canonical csrf m ->
  exists sc s1,
    protect csrf s = (Ok tt, s1) /\
    trace s1 = trace s ++ [EvRead sc (param csrf);
                           EvInfo "DELETE CSRF TOKEN: " (canonical csrf m);
                           EvClear sc (param csrf);
                           EvNext None].
Proof.
  intros Hdef Hc Ht Hb Hf Hh Hm Htr Heq.
  assert (Htok : getTransmitToken csrf (req s) = Ok (canonical csrf m)).
  { rewrite Hdef. unfold default_getTransmitToken. by rewrite Hb, Hf, Hh, Heq. }
  destruct (getToken_present csrf s m Hm) as [sc [Hk Hg]].
  assert (Hget : fst (getToken csrf s) = Ok (canonical csrf m)) by (by rewrite Hg).
  destruct (protect_accept csrf s cond (canonical csrf m) Hc Ht Htok Htr Hget)
    as [sc' [s1 [_ [Hrun Htrace]]]].
  by exists sc', s1.
Qed.

Lemma header_token_validates_witness :
  exists sc s1,
    protect csrf_initial post_header_only = (Ok tt, s1) /\
    trace s1 = trace post_header_only ++
               [EvRead sc (param csrf_initial);
                EvInfo "DELETE CSRF TOKEN: "
                       (canonical csrf_initial {["_csrf" := VStr "2aff"]});
                EvClear sc (param csrf_initial);
                EvNext None].
Proof.
  apply (header_token_validates csrf_initial post_header_only (VBool true)
           ∅ {["csrf-token" := VStr "2aff"]} {["_csrf" := VStr "2aff"]}).
  - reflexivity.
  - reflexivity.
  - reflexivity.
  - reflexivity.
  - reflexivity.
  - reflexivity.
  - reflexivity.
  - reflexivity.
  - reflexivity.
Defined.

Lemma from_hex_of_byte (b : byte) (rest : string) :
  from_hex (hex_of_byte b +:+ rest) = (b ::.) <$> from_hex rest.
Proof.
  change (hex_of_byte b +:+ rest)
    with (String (hex_digit (Byte.to_N b / 16))
                 (String (hex_digit (Byte.to_N b mod 16)) rest)).
  destruct b; simpl; by destruct (from_hex rest).
Qed.

Lemma from_hex_toString (buf : list byte) : from_hex (toString_hex buf) = Some buf.
Proof.
  induction buf as [|b rest IH]; [reflexivity|].
  change (toString_hex (b :: rest)) with (hex_of_byte b +:+ toString_hex rest).
  by rewrite from_hex_of_byte, IH.
Qed.

(** X21. The shape of a token. The hex encoding of [n] bytes drawn from
    the random source has exactly [2 * n] characters, each one of
    [0-9a-f]. *)
Theorem token_format (rnd : nat -> byte) (c n : nat) :
  let token := toString_hex (map rnd (seq c n)) in
  String.length token = 2 * n /\ all_chars is_hex_char token = true.
Proof.
  simpl. split.
  - by rewrite toString_hex_length, length_map, length_seq.
  - induction (map rnd (seq c n)) as [|b rest IH]; [reflexivity|].
    change (toString_hex (b :: rest)) with (hex_of_byte b +:+ toString_hex rest).
    change (hex_of_byte b +:+ toString_hex rest)
      with (String (hex_digit (Byte.to_N b / 16))
                   (String (hex_digit (Byte.to_N b mod 16)) (toString_hex rest))).
    destruct b; simpl; exact IH.
Qed.

(** X22. The encoding loses nothing: buffers that differ have hex
    encodings that differ, so distinct random bytes give distinct tokens. *)
Theorem toString_hex_injective (buf1 buf2 : list byte) :
  buf1 <> buf2 -> toString_hex buf1 <> toString_hex buf2.
Proof.
  intros Hne Heq. apply Hne.
  pose proof (from_hex_toString buf1) as H1.
  rewrite Heq, from_hex_toString in H1. congruence.
Qed.

Lemma toString_hex_injective_witness :
  toString_hex [x2a; xff] <> toString_hex [x2a; xfe].
Proof.
  apply (toString_hex_injective [x2a; xff] [x2a; xfe]). discriminate.
Defined.

(** X23. Building twice with the same configuration changes nothing the
    second time: [{...{...csrf, ...c}, ...c}] is [{...csrf, ...c}]. *)
Theorem generate_twice_same_configuration (csrf : Csrf) (c : CsrfConfig) :
  fst (generate c (fst (generate c csrf))) = fst (generate c csrf).
Proof.
  unfold generate, spread. simpl.
  destruct c as [[?|] [?|] [?|] [?|] [?|] [?|] [?|]]; reflexivity.
Qed.

(** X24. [generate()] without an argument is no reset. Its default
    parameter takes the three hooks from the module variable as it is at
    the call, so after any earlier configuration the call restores
    [param], [value], [storage] and [tokenLength] to their initial values
    and leaves the hooks then in force, custom ones included, in place. *)
Theorem generate_default_keeps_hooks (csrf : Csrf) :
  let csrf' := fst (generate_default csrf) in
  param csrf' = param csrf_initial /\
  value csrf' = value csrf_initial /\
  storage csrf' = storage csrf_initial /\
  tokenLength csrf' = tokenLength csrf_initial /\
  protectCondition csrf' = protectCondition csrf /\
  getTransmitToken csrf' = getTransmitToken csrf /\
  errorResponse csrf' = errorResponse csrf.
Proof. repeat split. Qed.

(** ** The second copy of the module *)

Ltac run_unguarded :=
  unfold Unguarded.middleware, Unguarded.setTokenLocalsParam, Unguarded.getToken;
  run_body.

(** X26. Without the prerequisite check a missing store is an ordinary
    exception. The middleware of the second copy, run with 'session' or
    'cookie' storage on a request that lacks the store, resolves: the
    TypeError of the read is caught, logged and passed to the
    continuation, and nothing is minted. *)
Theorem unguarded_middleware_without_store (csrf : Csrf) (s : St) (sc : scope) :
  scope_kind csrf = Some sc ->
  scope_of csrf (req s) = None ->
  Unguarded.middleware csrf s =
  (Ok tt, logged s [EvError (undefined_property (param csrf));
                    EvNext (Some (undefined_property (param csrf)))]).
Proof.
  unfold scope_kind, scope_of. run_unguarded.
  repeat case_decide; try discriminate; intros _ ->; simpl;
    unfold logged; by rewrite <- app_assoc.
Qed.

Lemma unguarded_middleware_without_store_witness :
  Unguarded.middleware csrf_initial get_bare =
  (Ok tt, logged get_bare
            [EvError (undefined_property (param csrf_initial));
             EvNext (Some (undefined_property (param csrf_initial)))]).
Proof.
  apply (unguarded_middleware_without_store csrf_initial get_bare SessionScope).
  - reflexivity.
  - reflexivity.
Defined.

(** X27. The two middlewares agree where the check passes. With the
    instance's storage the one in force, the store present on the request,
    the middleware of lib/cjs/index.js and the one of the second copy give
    the same result, response, random-source position and trace, and the
    same request up to [currentCsrfToken], which only the former sets. *)
Theorem unguarded_middleware_agrees (csrfConfig : CsrfConfig) (csrf : Csrf)
    (s : St) (m : gmap string jsval) :
  cfg_storage csrfConfig = Some (storage csrf) ->
  scope_of csrf (req s) = Some m ->
  let a := middleware csrfConfig csrf s in
  let b := Unguarded.middleware csrf s in
  fst a = fst b /\
  res (snd a) = res (snd b) /\
  cursor (snd a) = cursor (snd b) /\
  trace (snd a) = trace (snd b) /\
  session (req (snd a)) = session (req (snd b)) /\
  cookies (req (snd a)) = cookies (req (snd b)) /\
  currentCsrfToken (req (snd b)) = currentCsrfToken (req s).
Proof.
  intros Hsame Hm. revert Hm. unfold scope_of. run_unguarded.
  rewrite Hsame. simpl.
  repeat (case_match; simpl in *; simplify_eq); try done.
  all: repeat match goal with
       | H : _ && _ = true |- _ => apply andb_true_iff in H; destruct H
       | H : bool_decide _ = true |- _ => apply bool_decide_eq_true_1 in H
       end; simplify_eq; try done.
Qed.

Lemma unguarded_middleware_agrees_witness :
  let cfg := config_of 2 STORAGE.COOKIE "_csrf" in
  let csrf := spread csrf_initial cfg in
  let a := middleware cfg csrf first_visit in
  let b := Unguarded.middleware csrf first_visit in
  fst a = fst b /\
  res (snd a) = res (snd b) /\
  cursor (snd a) = cursor (snd b) /\
  trace (snd a) = trace (snd b) /\
  session (req (snd a)) = session (req (snd b)) /\
  cookies (req (snd a)) = cookies (req (snd b)) /\
  currentCsrfToken (req (snd b)) = currentCsrfToken (req first_visit).
Proof.
  apply (unguarded_middleware_agrees (config_of 2 STORAGE.COOKIE "_csrf")
           (spread csrf_initial (config_of 2 STORAGE.COOKIE "_csrf"))
           first_visit ∅).
  - reflexivity.
  - reflexivity.
Defined.

(** X28. Without the fallback the first page has no token. With 'cookie'
    storage, on a request whose cookies hold no token, and with a token
    length whose hex encoding fits a string, the second copy's middleware
    mints a token and sets the cookie, and its
    [setTokenLocalsParam], run next on the same request, puts [null] into
    [res.locals]: the minted token is not among the request's cookies and
    nothing else remembers it. *)
Theorem unguarded_expose_misses_minted_cookie (csrf : Csrf) (s : St)
    (jar : gmap string jsval) :
  type (storage csrf) = Some STORAGE.COOKIE ->
  cookies (req s) = Some jar ->
  truthy (canonical csrf jar) = false ->
  (0 <= 2 * tokenLength csrf <= kStringMaxLength)%Z ->
  let token := toString_hex
    (map (entropy s) (seq (cursor s) (Z.to_nat (tokenLength csrf)))) in
  exists s1 s2,
    Unguarded.middleware csrf s = (Ok tt, s1) /\
    cookie_ops (res s1) =
      cookie_ops (res s) ++ [SetCookie (param csrf) token (options (storage csrf))] /\
    Unguarded.setTokenLocalsParam csrf s1 = (Ok tt, s2) /\
    locals (res s2) = <[value csrf := VNull]> (locals (res s)).
Proof.
  intros Hty Hjar Hf Hrange token.
  assert (Hrb := randomBytes_in_range (tokenLength csrf)).
  unfold canonical in Hf.
  unfold Unguarded.middleware, Unguarded.setTokenLocalsParam, Unguarded.getToken.
  destruct (decide (type (storage csrf) = Some STORAGE.SESSION)) as [Hs|Hs];
    [rewrite Hty in Hs; discriminate|].
  destruct (decide (type (storage csrf) = Some STORAGE.COOKIE)) as [Hc|Hc];
    [|contradiction].
  unfold try_catch, read_cookie, res_cookie, next, emit, get_req, get_res,
    set_res, throw, mbind, M_bind, mret, M_ret. simpl.
  rewrite Hjar. simpl. rewrite Hf. simpl.
  rewrite Hrb by (apply fits_in_range; exact Hrange). simpl.
  rewrite Buffer_toString_fits by (rewrite random_length; lia). simpl.
  eexists _, _. split; [reflexivity|]. simpl. split; [reflexivity|].
  rewrite Hjar. simpl. split; [reflexivity|]. simpl.
  by rewrite (js_or_null_falsy _ Hf).
Qed.

Lemma unguarded_expose_misses_minted_cookie_witness :
  let cfg := config_of 2 STORAGE.COOKIE "_csrf" in
  let csrf := spread csrf_initial cfg in
  let token := toString_hex
    (map (entropy first_visit)
         (seq (cursor first_visit) (Z.to_nat (tokenLength csrf)))) in
  exists s1 s2,
    Unguarded.middleware csrf first_visit = (Ok tt, s1) /\
    cookie_ops (res s1) =
      cookie_ops (res first_visit) ++
      [SetCookie (param csrf) token (options (storage csrf))] /\
    Unguarded.setTokenLocalsParam csrf s1 = (Ok tt, s2) /\
    locals (res s2) = <[value csrf := VNull]> (locals (res first_visit)).
Proof.
  apply (unguarded_expose_misses_minted_cookie
           (spread csrf_initial (config_of 2 STORAGE.COOKIE "_csrf"))
           first_visit ∅).
  - reflexivity.
  - reflexivity.
  - reflexivity.
  - unfold kStringMaxLength. simpl. lia.
Defined.
